(** * Submission serializers of the competition platform

    A shallow embedding of [src/apps/api/serializers/submissions.py]
    ([SubmissionCreationSerializer.create], [.update] and the field
    configuration of its [Meta]), of the phase migration and of the result
    export exercised by [src/apps/api/tests/test_competitions.py].

    Python exceptions are values of [Error]; code that touches the database
    or calls the compute worker runs in the monad [M], a state monad over
    [World] whose state survives a raised exception, as Python's does. *)

From Stdlib Require Import Ascii.
From stdpp Require Import gmap strings list fin_maps pretty sorting.

Open Scope Z_scope.

(** ** Data model *)

(** Modelled from the spec: the status choices of
    [competitions.models.Submission], which is not among the sources
    (section 4.1 lists them). *)
Inductive Status :=
| SUBMITTING | SUBMITTED | RUNNING | SCORING | FINISHED | FAILED | CANCELLED.

#[global] Instance Status_eq_dec : EqDecision Status.
Proof. solve_decision. Defined.

(** Modelled from the spec: [datasets.models.Data], of which the serializers
    read the slug [key] and [data_file.name]. *)
Record Data := {
  data_key : string;
  data_file_name : string;
}.

#[global] Instance Data_eq_dec : EqDecision Data.
Proof. solve_decision. Defined.

(** Modelled from the spec: the fields of [competitions.models.Submission]
    (section 3) that the serializers and the migration read or write.
    Related objects ([owner], [phase], [parent]) are held by primary key,
    the secret token is a UUID, kept as its 128-bit number. *)
Record Submission := {
  pk : Z;
  owner : Z;
  phase : Z;
  parent : option Z;
  has_children : bool;
  status : Status;
  status_details : option string;
  secret : Z;
  data : option Data;
  description : option string;
}.

#[global] Instance Submission_eq_dec : EqDecision Submission.
Proof. solve_decision. Defined.

(** [validated_data]: the dict handed over by the framework after field
    validation.  A key is present ([Some]) or absent ([None]); the keys are
    the writable fields of [Meta.fields], and ["owner"], which [create] adds.
    [data] has [allow_null=True], so its value may itself be [None]. *)
Record ValidatedData := {
  vd_data : option (option Data);
  vd_phase : option Z;
  vd_status : option Status;
  vd_status_details : option (option string);
  vd_secret : option Z;
  vd_owner : option Z;
}.

#[global] Instance ValidatedData_eq_dec : EqDecision ValidatedData.
Proof. solve_decision. Defined.

(** ** Exceptions, events and the world *)

(** The Python exceptions the code raises, and the two errors of the
    specification's taxonomy (section 7) that the statements mention. *)
Inductive Error :=
| KeyError (key : string)
| PermissionError (msg : string)
| AttributeError (msg : string)
| IntegrityError (msg : string)
| NotFoundError
| InvalidTransitionError.

#[global] Instance Error_eq_dec : EqDecision Error.
Proof. solve_decision. Defined.

Inductive Printed :=
| PStr (s : string)
| PDict (d : ValidatedData).

#[global] Instance Printed_eq_dec : EqDecision Printed.
Proof. solve_decision. Defined.

(** What a call leaves behind outside of its return value: a line on
    standard output, a call of [competitions.tasks.run_submission], a row
    written by [Model.save]. *)
Inductive Event :=
| EPrint (p : Printed)
| ERunSubmission (submission_pk : Z) (is_scoring : bool)
| ESave (row : Submission).

#[global] Instance Event_eq_dec : EqDecision Event.
Proof. solve_decision. Defined.

(** The submission table by primary key, the events so far in the order they
    happened, and the source of [uuid.uuid4] draws. *)
Record World := {
  submissions : gmap Z Submission;
  trace : list Event;
  uuid_source : nat -> Z;
  uuid_drawn : nat;
}.

Definition Result (A : Type) : Type := Error + A.

Definition M (A : Type) : Type := World -> Result A * World.

Definition ret {A} (a : A) : M A := fun w => (inr a, w).

Definition bind {A B} (m : M A) (k : A -> M B) : M B :=
  fun w =>
    match m w with
    | (inl e, w') => (inl e, w')
    | (inr a, w') => k a w'
    end.

Definition raise {A} (e : Error) : M A := fun w => (inl e, w).

Declare Scope py_scope.
Delimit Scope py_scope with py.
Notation "x <- c1 ;; c2" := (bind c1 (fun x => c2))
  (at level 100, c1 at next level, right associativity) : py_scope.
Notation "c1 ;; c2" := (bind c1 (fun _ => c2))
  (at level 100, right associativity) : py_scope.
Open Scope py_scope.

Definition emit (e : Event) : M unit :=
  fun w => (inr tt, {| submissions := submissions w;
                       trace := trace w ++ [e];
                       uuid_source := uuid_source w;
                       uuid_drawn := uuid_drawn w |}).

Definition print (p : Printed) : M unit := emit (EPrint p).

(** Modelled from the spec: [competitions.tasks.run_submission], the
    fire-and-forget dispatch to the execution collaborator (section 6); the
    tests replace it by a mock and count its calls. *)
Definition run_submission (submission_pk : Z) (is_scoring : bool) : M unit :=
  emit (ERunSubmission submission_pk is_scoring).

(** [Model.save]: the row is written under its primary key, inserted when
    the key is new and replaced otherwise. *)
Definition save (row : Submission) : M unit :=
  fun w => (inr tt, {| submissions := <[pk row := row]> (submissions w);
                       trace := trace w ++ [ESave row];
                       uuid_source := uuid_source w;
                       uuid_drawn := uuid_drawn w |}).

Definition uuid4 : M Z :=
  fun w => (inr (uuid_source w (uuid_drawn w)),
            {| submissions := submissions w;
               trace := trace w;
               uuid_source := uuid_source w;
               uuid_drawn := S (uuid_drawn w) |}).

(** ** [rest_framework.serializers.ModelSerializer] *)

Definition set_data (v : option Data) (s : Submission) : Submission :=
  {| pk := pk s; owner := owner s; phase := phase s; parent := parent s;
     has_children := has_children s; status := status s;
     status_details := status_details s; secret := secret s;
     data := v; description := description s |}.

Definition set_phase (v : Z) (s : Submission) : Submission :=
  {| pk := pk s; owner := owner s; phase := v; parent := parent s;
     has_children := has_children s; status := status s;
     status_details := status_details s; secret := secret s;
     data := data s; description := description s |}.

Definition set_status (v : Status) (s : Submission) : Submission :=
  {| pk := pk s; owner := owner s; phase := phase s; parent := parent s;
     has_children := has_children s; status := v;
     status_details := status_details s; secret := secret s;
     data := data s; description := description s |}.

Definition set_status_details (v : option string) (s : Submission) : Submission :=
  {| pk := pk s; owner := owner s; phase := phase s; parent := parent s;
     has_children := has_children s; status := status s;
     status_details := v; secret := secret s;
     data := data s; description := description s |}.

Definition set_secret (v : Z) (s : Submission) : Submission :=
  {| pk := pk s; owner := owner s; phase := phase s; parent := parent s;
     has_children := has_children s; status := status s;
     status_details := status_details s; secret := v;
     data := data s; description := description s |}.

Definition set_owner (v : Z) (s : Submission) : Submission :=
  {| pk := pk s; owner := v; phase := phase s; parent := parent s;
     has_children := has_children s; status := status s;
     status_details := status_details s; secret := secret s;
     data := data s; description := description s |}.

(** One [setattr(instance, attr, value)] for a key that may be absent. *)
Definition setattr_if {V} (set : V -> Submission -> Submission)
    (entry : option V) (s : Submission) : Submission :=
  match entry with
  | Some v => set v s
  | None => s
  end.

(** [for attr, value in validated_data.items(): setattr(instance, attr, value)] *)
Definition setattrs (instance : Submission) (validated_data : ValidatedData)
    : Submission :=
  setattr_if set_owner (vd_owner validated_data)
    (setattr_if set_secret (vd_secret validated_data)
      (setattr_if set_status_details (vd_status_details validated_data)
        (setattr_if set_status (vd_status validated_data)
          (setattr_if set_phase (vd_phase validated_data)
            (setattr_if set_data (vd_data validated_data) instance))))).

(** [ModelSerializer.update]: every entry of [validated_data] is set on the
    instance, the instance is saved and returned. *)
Definition ModelSerializer_update (instance : Submission)
    (validated_data : ValidatedData) : M Submission :=
  let instance' := setattrs instance validated_data in
  save instance' ;;
  ret instance'.

(** Primary keys come from the table's sequence: one more than the largest
    key in use (and 1 for an empty table). *)
Definition fresh_pk (table : gmap Z Submission) : Z :=
  1 + map_fold (fun k _ acc => Z.max k acc) 0 table.

Definition next_pk : M Z := fun w => (inr (fresh_pk (submissions w)), w).

(** A model field left out of the keyword arguments takes its default. *)
Definition or_default {V} (entry : option V) (default : M V) : M V :=
  match entry with
  | Some v => ret v
  | None => default
  end.

(** A foreign key without a value violates NOT NULL when the row is
    inserted. *)
Definition not_null {V} (column : string) (entry : option V) : M V :=
  match entry with
  | Some v => ret v
  | None => raise (IntegrityError column)
  end.

(** [ModelSerializer.create], that is [Submission.objects.create] with
    [validated_data] as keyword arguments: a new row under a new primary
    key.  The defaults of the model fields are taken from section 4.1 of the
    specification (status [SUBMITTING], a fresh [uuid4] secret, no parent),
    the model class not being among the sources. *)
Definition ModelSerializer_create (validated_data : ValidatedData)
    : M Submission :=
  secret_ <- or_default (vd_secret validated_data) uuid4 ;;
  status_ <- or_default (vd_status validated_data) (ret SUBMITTING) ;;
  status_details_ <- or_default (vd_status_details validated_data) (ret None) ;;
  data_ <- or_default (vd_data validated_data) (ret None) ;;
  owner_ <- not_null "owner_id" (vd_owner validated_data) ;;
  phase_ <- not_null "phase_id" (vd_phase validated_data) ;;
  new_pk <- next_pk ;;
  let instance :=
    {| pk := new_pk; owner := owner_; phase := phase_; parent := None;
       has_children := false; status := status_;
       status_details := status_details_; secret := secret_;
       data := data_; description := None |} in
  save instance ;;
  ret instance.

(** Modelled from the spec: [Submission.start] (section 4.1), which hands the
    submission to the execution collaborator and does not wait for it. *)
Definition start (sub : Submission) : M unit :=
  run_submission (pk sub) false.

(** [os.path.basename]: what follows the last slash. *)
Fixpoint after_last_slash (p candidate : string) : string :=
  match p with
  | EmptyString => candidate
  | String c rest =>
      after_last_slash rest (if Ascii.eqb c "/"%char then rest else candidate)
  end.

Definition basename (p : string) : string := after_last_slash p p.

(** Rendered field values. *)
Inductive JSON :=
| JNull
| JInt (n : Z)
| JStr (s : string)
| JChoice (st : Status)
| JUuid (u : Z).

#[global] Instance JSON_eq_dec : EqDecision JSON.
Proof. solve_decision. Defined.

Record FieldKwargs := {
  write_only : bool;
  read_only : bool;
}.

Fixpoint mapM_result {A B} (f : A -> Result B) (l : list A) : Result (list B) :=
  match l with
  | [] => inr []
  | a :: rest =>
      match f a with
      | inl e => inl e
      | inr b =>
          match mapM_result f rest with
          | inl e => inl e
          | inr bs => inr (b :: bs)
          end
      end
  end.

(** The user handed to the serializer as [context={'owner': ...}]; the key
    may be missing. *)
Record Context := {
  ctx_owner : option Z;
}.

(** ** [SubmissionCreationSerializer] *)

Module SubmissionCreationSerializer.

(** [class Meta]: [fields] and [extra_kwargs]. *)
Definition fields : list string :=
  ["id"; "data"; "phase"; "status"; "status_details"; "filename";
   "description"; "secret"].

Definition extra_kwargs : list (string * FieldKwargs) :=
  [("secret", {| write_only := true; read_only := false |});
   ("description", {| write_only := false; read_only := true |})].

Definition is_write_only (name : string) : bool :=
  match list_find (fun entry => entry.1 = name) extra_kwargs with
  | Some (_, (_, kwargs)) => write_only kwargs
  | None => false
  end.

(** [Serializer._readable_fields]: the fields that are not write-only. *)
Definition readable_fields : list string :=
  filter (fun name => is_write_only name = false) fields.

Definition get_filename (instance : Submission) : Result string :=
  match data instance with
  | Some d => inr (basename (data_file_name d))
  | None => inl (AttributeError "'NoneType' object has no attribute 'data_file'")
  end.

Definition opt_str (o : option string) : JSON :=
  match o with
  | Some s => JStr s
  | None => JNull
  end.

(** The value a field renders for an instance: [data] by its slug [key],
    [phase] by primary key, [filename] through [get_filename]. *)
Definition field_to_representation (instance : Submission) (name : string)
    : Result JSON :=
  if decide (name = "id") then inr (JInt (pk instance))
  else if decide (name = "data") then
    inr (match data instance with Some d => JStr (data_key d) | None => JNull end)
  else if decide (name = "phase") then inr (JInt (phase instance))
  else if decide (name = "status") then inr (JChoice (status instance))
  else if decide (name = "status_details") then
    inr (opt_str (status_details instance))
  else if decide (name = "filename") then
    match get_filename instance with
    | inl e => inl e
    | inr f => inr (JStr f)
    end
  else if decide (name = "description") then
    inr (opt_str (description instance))
  else if decide (name = "secret") then inr (JUuid (secret instance))
  else inl (AttributeError name).

(** [Serializer.to_representation]: one entry per readable field, in the
    order of [fields]. *)
Definition to_representation (instance : Submission)
    : Result (list (string * JSON)) :=
  mapM_result
    (fun name =>
       match field_to_representation instance name with
       | inl e => inl e
       | inr v => inr (name, v)
       end)
    readable_fields.

(** [self.context['owner']] *)
Definition getitem_owner (context : Context) : M Z :=
  match ctx_owner context with
  | Some u => ret u
  | None => raise (KeyError "owner")
  end.

(** [validated_data["owner"] = value] *)
Definition setitem_owner (validated_data : ValidatedData) (value : Z)
    : ValidatedData :=
  {| vd_data := vd_data validated_data;
     vd_phase := vd_phase validated_data;
     vd_status := vd_status validated_data;
     vd_status_details := vd_status_details validated_data;
     vd_secret := vd_secret validated_data;
     vd_owner := Some value |}.

Definition create (context : Context) (validated_data : ValidatedData)
    : M Submission :=
  owner_ <- getitem_owner context ;;
  let validated_data := setitem_owner validated_data owner_ in
  sub <- ModelSerializer_create validated_data ;;
  start sub ;;
  ret sub.

(** [validated_data["status"]] *)
Definition getitem_status (validated_data : ValidatedData) : M Status :=
  match vd_status validated_data with
  | Some st => ret st
  | None => raise (KeyError "status")
  end.

Definition update (instance : Submission) (validated_data : ValidatedData)
    : M Submission :=
  if decide (Some (secret instance) <> vd_secret validated_data) then
    raise (PermissionError "Submission secret invalid")
  else
    print (PStr "Updated to...") ;;
    print (PDict validated_data) ;;
    new_status <- getitem_status validated_data ;;
    (if decide (new_status = SCORING) then
       (* Start scoring because we're "SCORING" status now from compute worker *)
       run_submission (pk instance) true
     else ret tt) ;;
    ModelSerializer_update instance validated_data.

End SubmissionCreationSerializer.

(** ** Phase migration *)

(** Modelled from the spec: the competition and phase models and the
    migration engine of section 4.2 ([migrate]); the view behind
    [phases-manually_migrate] is not among the sources, only its tests are. *)
Record Competition := {
  comp_pk : Z;
  comp_title : string;
  created_by : Z;
  collaborators : list Z;
}.

Record Phase := {
  phase_pk : Z;
  phase_competition : Competition;
  phase_index : Z;
}.

Record MigrationResult := {
  created : nat;
  triggered : nat;
}.

Module PhaseMigration.

(** Modelled from the spec: the requester is the creator or a collaborator
    of the competition. *)
Definition is_admin (requester : Z) (c : Competition) : bool :=
  bool_decide (requester = created_by c)
  || bool_decide (requester ∈ collaborators c).

(** Modelled from the spec: the selection of section 4.2, the submissions of
    the phase that have no parent, whether or not they have children. *)
Definition top_level (table : gmap Z Submission) (source : Phase)
    : list Submission :=
  filter (fun s => phase s = phase_pk source /\ parent s = None)
         (map_to_list table).*2.

(** Modelled from the spec: the clone of section 4.2, a new row in the
    target phase with the owner and the data of the original, no parent and
    status [SUBMITTING]. *)
Definition clone_into (target : Phase) (s : Submission) : M Submission :=
  new_secret <- uuid4 ;;
  new_pk <- next_pk ;;
  let clone :=
    {| pk := new_pk; owner := owner s; phase := phase_pk target;
       parent := None; has_children := has_children s;
       status := SUBMITTING; status_details := None;
       secret := new_secret; data := data s;
       description := description s |} in
  save clone ;;
  ret clone.

(** Modelled from the spec: each selected submission is cloned and the clone
    started; the counts of both are kept. *)
Fixpoint migrate_each (target : Phase) (selected : list Submission)
    (counts : MigrationResult) : M MigrationResult :=
  match selected with
  | [] => ret counts
  | s :: rest =>
      clone <- clone_into target s ;;
      start clone ;;
      migrate_each target rest
        {| created := S (created counts); triggered := S (triggered counts) |}
  end.

(** Modelled from the spec: [migrate(source_phase, target_phase, requester)]
    of section 4.2. *)
Definition migrate (source target : Phase) (requester : Z)
    : M MigrationResult :=
  if negb (is_admin requester (phase_competition source)) then
    raise (PermissionError
             "You do not have administrative permissions for this competition")
  else
    selected <- (fun w => (inr (top_level (submissions w) source), w)) ;;
    migrate_each target selected {| created := 0; triggered := 0 |}.

End PhaseMigration.

(** [phase.submissions.count()] *)
Definition submissions_count (w : World) (phase_id : Z) : nat :=
  size (filter (fun row : Z * Submission => phase row.2 = phase_id)
               (submissions w)).

(** The calls of [run_submission] among some events, as the mock of the
    tests records them. *)
Definition run_submission_calls (events : list Event) : list (Z * bool) :=
  omap (fun e => match e with
                 | ERunSubmission submission_pk is_scoring =>
                     Some (submission_pk, is_scoring)
                 | _ => None
                 end) events.

(** The rows saved among some events. *)
Definition saved_rows (events : list Event) : list Submission :=
  omap (fun e => match e with
                 | ESave row => Some row
                 | _ => None
                 end) events.

(** ** Result export *)

(** Modelled from the spec: columns and leaderboards (section 3). *)
Record Column := {
  col_pk : Z;
  col_title : string;
  col_index : Z;
  col_hidden : bool;
}.

#[global] Instance Column_eq_dec : EqDecision Column.
Proof. solve_decision. Defined.

Record Leaderboard := {
  lb_pk : Z;
  lb_competition : Z;
  lb_title : string;
  lb_columns : list Column;
}.

#[global] Instance Leaderboard_eq_dec : EqDecision Leaderboard.
Proof. solve_decision. Defined.

(** Modelled from the spec: the aggregator of section 4.3, as the interface
    the exporter consumes: the table of a leaderboard and its rows for CSV. *)
Class Aggregator := {
  Table : Type;
  compute : Leaderboard -> Table;
  csv_rows : Leaderboard -> Table -> list (list string);
}.

Inductive Selector :=
| SelAll
| SelId (id : Z)
| SelTitle (title : string).

Record ZipResponse := {
  content_type : string;
  content_disposition : string;
  zip_entries : list (string * list (list string));
}.

Module ResultExport.

(** [needle in haystack] on Python strings, case-sensitive. *)
Fixpoint starts_with (needle haystack : string) : bool :=
  match needle, haystack with
  | EmptyString, _ => true
  | String a needle', String b haystack' =>
      Ascii.eqb a b && starts_with needle' haystack'
  | String _ _, EmptyString => false
  end.

Fixpoint contains (needle haystack : string) : bool :=
  starts_with needle haystack
  || match haystack with
     | EmptyString => false
     | String _ rest => contains needle rest
     end.

(** Modelled from the spec: the composite key ["{title}({id})"]. *)
Definition leaderboard_key (lb : Leaderboard) : string :=
  lb_title lb +:+ "(" +:+ pretty (lb_pk lb) +:+ ")".

(** Modelled from the spec: the selector of section 4.4, all leaderboards,
    one by its id, or those found by a title string, looked for as a
    case-sensitive substring.  The string is looked for in the key
    ["{title}({id})"] under which the leaderboard is exported:
    [test_get_competition_leaderboard_by_title_as_csv] asks for
    [title={title}({id})] and expects the leaderboard back, and
    [test_get_competition_leaderboard_by_title_as_json] looks for the title
    in the keys. *)
Definition matches (selector : Selector) (lb : Leaderboard) : bool :=
  match selector with
  | SelAll => true
  | SelId id => bool_decide (lb_pk lb = id)
  | SelTitle title => contains title (leaderboard_key lb)
  end.

Definition in_scope (leaderboards : list Leaderboard) (c : Competition)
    (selector : Selector) : list Leaderboard :=
  filter (fun lb => lb_competition lb = comp_pk c /\ matches selector lb = true)
         leaderboards.

(** Modelled from the spec: [NotFoundError] when an [id] or [title] selector
    matches nothing; the [all] form never fails. *)
Definition select (leaderboards : list Leaderboard) (c : Competition)
    (selector : Selector) : Result (list Leaderboard) :=
  match selector, in_scope leaderboards c selector with
  | SelAll, found => inr found
  | _, [] => inl NotFoundError
  | _, found => inr found
  end.

(** Modelled from the spec: [format = json], a mapping from composite key to
    the table of the leaderboard, filled in scope order. *)
Definition export_json `{Aggregator} (leaderboards : list Leaderboard)
    (c : Competition) (selector : Selector) : Result (gmap string Table) :=
  match select leaderboards c selector with
  | inl e => inl e
  | inr found =>
      inr (foldl (fun result lb => <[leaderboard_key lb := compute lb]> result)
                 ∅ found)
  end.

(** Modelled from the spec: [format = zip], one CSV per leaderboard in
    scope, with the headers of section 6. *)
Definition export_zip `{Aggregator} (leaderboards : list Leaderboard)
    (c : Competition) (selector : Selector) : Result ZipResponse :=
  match select leaderboards c selector with
  | inl e => inl e
  | inr found =>
      inr {| content_type := "application/x-zip-compressed";
             content_disposition :=
               "attachment; filename=" +:+ comp_title c +:+ ".zip";
             zip_entries :=
               map (fun lb => (leaderboard_key lb +:+ ".csv",
                               csv_rows lb (compute lb))) found |}
  end.

End ResultExport.

(** ** [SubmissionScoreSerializer] and [SubmissionSerializer] *)

(** Modelled from the spec: [leaderboards.models.SubmissionScore]
    (section 3), a score for a column.  The score is kept as a whole number
    of the smallest unit the model stores. *)
Record SubmissionScore := {
  column : Column;
  score : Z;
}.

(** A submission as the read serializer sees it: the row of [Submission]
    together with the columns and the relation that only this serializer
    shows. *)
Record SubmissionDetail := {
  submission : Submission;
  name : option string;
  created_when : string;
  is_public : bool;
  leaderboard : option Z;
  scores : list SubmissionScore;
}.

(** The default ordering of [SubmissionScore], [('column__index',)], set by
    migration [0002_auto_20191226_2240] of the leaderboards. *)
Definition score_ordering (a b : SubmissionScore) : Prop :=
  col_index (column a) <= col_index (column b).

#[global] Instance score_ordering_dec a b : Decision (score_ordering a b).
Proof. unfold score_ordering. apply _. Defined.

(** [instance.scores.all()]: the scores of the submission in the default
    ordering; how scores of equal index follow each other is left to the
    database, the merge sort is one such order. *)
Definition scores_all (instance : SubmissionDetail) : list SubmissionScore :=
  merge_sort score_ordering (scores instance).

(** What a field of the read serializer renders: a scalar, a boolean or,
    for the nested serializer with [many=True], the list of rendered
    scores. *)
Inductive Rendered :=
| RScalar (v : JSON)
| RBool (b : bool)
| RMany (rows : list (list (string * JSON))).

Module SubmissionScoreSerializer.

Definition fields : list string := ["index"; "score"].

(** [index] has [source='column.index']. *)
Definition to_representation (instance : SubmissionScore)
    : list (string * JSON) :=
  [("index", JInt (col_index (column instance)));
   ("score", JInt (score instance))].

End SubmissionScoreSerializer.

Module SubmissionSerializer.

Definition fields : list string :=
  ["phase"; "name"; "filename"; "description"; "pk"; "id"; "created_when";
   "is_public"; "status"; "status_details"; "scores"; "leaderboard"].

Definition extra_kwargs : list (string * FieldKwargs) :=
  [("phase", {| write_only := false; read_only := true |});
   ("scores", {| write_only := false; read_only := true |});
   ("leaderboard", {| write_only := false; read_only := true |})].

Definition is_write_only (field : string) : bool :=
  match list_find (fun entry => entry.1 = field) extra_kwargs with
  | Some (_, (_, kwargs)) => write_only kwargs
  | None => false
  end.

Definition readable_fields : list string :=
  filter (fun field => is_write_only field = false) fields.

Definition get_filename (instance : SubmissionDetail) : Result string :=
  match data (submission instance) with
  | Some d => inr (basename (data_file_name d))
  | None => inl (AttributeError "'NoneType' object has no attribute 'data_file'")
  end.

(** The value a field renders: [pk] and [id] are both the primary key,
    [scores] goes through [SubmissionScoreSerializer] for each score of
    [scores.all()]. *)
Definition field_to_representation (instance : SubmissionDetail)
    (field : string) : Result Rendered :=
  let sub := submission instance in
  if decide (field = "phase") then inr (RScalar (JInt (phase sub)))
  else if decide (field = "name") then
    inr (RScalar (match name instance with Some s => JStr s | None => JNull end))
  else if decide (field = "filename") then
    match get_filename instance with
    | inl e => inl e
    | inr f => inr (RScalar (JStr f))
    end
  else if decide (field = "description") then
    inr (RScalar (match description sub with Some s => JStr s | None => JNull end))
  else if decide (field = "pk") then inr (RScalar (JInt (pk sub)))
  else if decide (field = "id") then inr (RScalar (JInt (pk sub)))
  else if decide (field = "created_when") then
    inr (RScalar (JStr (created_when instance)))
  else if decide (field = "is_public") then inr (RBool (is_public instance))
  else if decide (field = "status") then inr (RScalar (JChoice (status sub)))
  else if decide (field = "status_details") then
    inr (RScalar (match status_details sub with
                  | Some s => JStr s
                  | None => JNull
                  end))
  else if decide (field = "scores") then
    inr (RMany (SubmissionScoreSerializer.to_representation
                  <$> scores_all instance))
  else if decide (field = "leaderboard") then
    inr (RScalar (match leaderboard instance with
                  | Some key => JInt key
                  | None => JNull
                  end))
  else inl (AttributeError field).

Definition to_representation (instance : SubmissionDetail)
    : Result (list (string * Rendered)) :=
  mapM_result
    (fun field =>
       match field_to_representation instance field with
       | inl e => inl e
       | inr v => inr (field, v)
       end)
    readable_fields.

End SubmissionSerializer.

(** ** The checks of [test_competitions.py] *)

(** What the test code can raise besides the exceptions above. *)
Inductive TestError :=
| Raised (e : Error)
| IndexError (msg : string)
| TypeError (msg : string)
| ValueError (msg : string)
| AssertionError.

Definition TestResult (A : Type) : Type := TestError + A.

#[local] Set Warnings "-register-all".

(** The data of a response once parsed: JSON values, with dicts as their
    entries in insertion order. *)
Inductive PyVal :=
| VNone
| VBool (b : bool)
| VInt (n : Z)
| VStr (s : string)
| VList (items : list PyVal)
| VDict (entries : list (string * PyVal)).

(** [d.get(key)] on the entries of a dict. *)
Fixpoint dict_lookup (key : string) (entries : list (string * PyVal))
    : option PyVal :=
  match entries with
  | [] => None
  | (k, v) :: rest => if decide (k = key) then Some v else dict_lookup key rest
  end.

(** [del d[key]]: the entry of the key is taken out. *)
Definition dict_remove (key : string) (entries : list (string * PyVal))
    : list (string * PyVal) :=
  filter (fun entry => entry.1 <> key) entries.

(** [d[key] = value]: the value is replaced where the key stands, or the
    entry is added at the end. *)
Fixpoint dict_set (key : string) (value : PyVal)
    (entries : list (string * PyVal)) : list (string * PyVal) :=
  match entries with
  | [] => [(key, value)]
  | (k, v) :: rest =>
      if decide (k = key) then (k, value) :: rest
      else (k, v) :: dict_set key value rest
  end.

(** [d.pop(key)] *)
Definition dict_pop (key : string) (entries : list (string * PyVal))
    : TestResult (PyVal * list (string * PyVal)) :=
  match dict_lookup key entries with
  | Some v => inr (v, dict_remove key entries)
  | None => inl (Raised (KeyError key))
  end.

(** [v[key]] for a string key. *)
Definition getitem_str (v : PyVal) (key : string) : TestResult PyVal :=
  match v with
  | VDict entries =>
      match dict_lookup key entries with
      | Some x => inr x
      | None => inl (Raised (KeyError key))
      end
  | VList _ => inl (TypeError "list indices must be integers or slices, not str")
  | VStr _ => inl (TypeError "string indices must be integers")
  | _ => inl (TypeError "object is not subscriptable")
  end.

(** [v[0]]; the keys of a parsed dict are strings, so [0] is never one. *)
Definition getitem_0 (v : PyVal) : TestResult PyVal :=
  match v with
  | VList (x :: _) => inr x
  | VList [] => inl (IndexError "list index out of range")
  | VStr (String c _) => inr (VStr (String c EmptyString))
  | VStr EmptyString => inl (IndexError "string index out of range")
  | VDict _ => inl (Raised (KeyError "0"))
  | _ => inl (TypeError "object is not subscriptable")
  end.

(** [v[key] = value] for a string key. *)
Definition setitem_str (v : PyVal) (key : string) (value : PyVal)
    : TestResult PyVal :=
  match v with
  | VDict entries => inr (VDict (dict_set key value entries))
  | _ => inl (TypeError "object does not support item assignment")
  end.

(** The list whose first item has become [item]: what the list looks like
    after that item, a dict held by reference, was changed in place. *)
Definition with_item_0 (v : PyVal) (item : PyVal) : PyVal :=
  match v with
  | VList (_ :: rest) => VList (item :: rest)
  | _ => v
  end.

Definition test_bind {A B} (m : TestResult A) (k : A -> TestResult B)
    : TestResult B :=
  match m with
  | inl e => inl e
  | inr a => k a
  end.

Declare Scope test_scope.
Delimit Scope test_scope with test.
Notation "x <- c1 ;; c2" := (test_bind c1 (fun x => c2))
  (at level 100, c1 at next level, right associativity) : test_scope.
Notation "c1 ;; c2" := (test_bind c1 (fun _ => c2))
  (at level 100, right associativity) : test_scope.

(** [assert condition] *)
Definition assert_ (condition : bool) : TestResult unit :=
  if condition then inr tt else inl AssertionError.

(** The truth value of a string: false for the empty string only. *)
Definition truthy (s : string) : bool :=
  match s with
  | EmptyString => false
  | String _ _ => true
  end.

(** The split of [s] at its last [sep], if it has one. *)
Fixpoint rsplit_at_last (sep : ascii) (s : string) : option (string * string) :=
  match s with
  | EmptyString => None
  | String a rest =>
      match rsplit_at_last sep rest with
      | Some (left_, right_) => Some (String a left_, right_)
      | None => if Ascii.eqb a sep then Some (EmptyString, rest) else None
      end
  end.

(** [s.rsplit(sep, 1)] for a separator of one character. *)
Definition rsplit (sep : ascii) (s : string) : list string :=
  match rsplit_at_last sep s with
  | Some (left_, right_) => [left_; right_]
  | None => [s]
  end.

(** [a, b = parts] *)
Definition unpack2 (parts : list string) : TestResult (string * string) :=
  match parts with
  | [a; b] => inr (a, b)
  | [] => inl (ValueError "not enough values to unpack (expected 2, got 0)")
  | [_] => inl (ValueError "not enough values to unpack (expected 2, got 1)")
  | _ => inl (ValueError "too many values to unpack (expected 2)")
  end.

Module CompetitionTests.

Open Scope test_scope.

(** [_prepare_competition_data], from the data of the response on: the id is
    popped, the logo set to [None], and the tasks of the first phase replaced
    by the key of the first of them. *)
Definition _prepare_competition_data (data : list (string * PyVal))
    : TestResult (list (string * PyVal)) :=
  popped <- dict_pop "id" data ;;
  let data := dict_set "logo" VNone popped.2 in
  phases <- getitem_str (VDict data) "phases" ;;
  phase0 <- getitem_0 phases ;;
  tasks <- getitem_str phase0 "tasks" ;;
  task0 <- getitem_0 tasks ;;
  key <- getitem_str task0 "key" ;;
  phase0 <- setitem_str phase0 "tasks" (VList [key]) ;;
  inr (dict_set "phases" (with_item_0 phases phase0) data).

End CompetitionTests.

Module CompetitionResultDatatypesTests.

Open Scope test_scope.

(** [f'{title}({id})'], the key the tests expect for a leaderboard and, with
    a column, the name they expect in a CSV header. *)
Definition expected_key (title : string) (id : Z) : string :=
  title +:+ "(" +:+ pretty id +:+ ")".

(** The loop of [test_get_competition_leaderboard_as_json] over the keys of
    the content: the title is what stands before the last parenthesis of a
    key, the users are the keys of its value. *)
Fixpoint collect (content : list (string * list string))
    (response_titles response_users : gset string)
    : TestResult (gset string * gset string) :=
  match content with
  | [] => inr (response_titles, response_users)
  | (key, users) :: rest =>
      parts <- unpack2 (rsplit "(" key) ;;
      collect rest ({[ parts.1 ]} ∪ response_titles)
              (list_to_set users ∪ response_users)
  end.

(** [test_get_competition_leaderboard_as_json], from the parsed content on. *)
Definition test_get_competition_leaderboard_as_json
    (leaderboard_ids_to_titles : list (Z * string)) (usernames : gset string)
    (content : list (string * list string)) : TestResult unit :=
  collected <- collect content ∅ ∅ ;;
  let leaderboard_titles : gset string :=
    list_to_set leaderboard_ids_to_titles.*2 in
  assert_ (bool_decide (leaderboard_titles = collected.1)) ;;
  assert_ (bool_decide (usernames = collected.2)).

(** [test_get_competition_leaderboard_by_title_as_json], from the keys of
    the parsed content on. *)
Fixpoint test_get_competition_leaderboard_by_title_as_json
    (leaderboard_choice : string) (keys : list string) : TestResult unit :=
  match keys with
  | [] => inr tt
  | title :: rest =>
      assert_ (ResultExport.contains leaderboard_choice title) ;;
      test_get_competition_leaderboard_by_title_as_json leaderboard_choice rest
  end.

(** The loop over the columns in the two CSV tests: the asserted value is
    the formatted string itself. *)
Fixpoint assert_columns (columns : list (string * Z)) : TestResult unit :=
  match columns with
  | [] => inr tt
  | (column_title, column_id) :: rest =>
      assert_ (truthy (expected_key column_title column_id)) ;;
      assert_columns rest
  end.

(** [test_get_competition_leaderboard_by_id_as_csv] and
    [test_get_competition_leaderboard_by_title_as_csv], from the rows read by
    [csv.reader] on. *)
Definition test_get_competition_leaderboard_as_csv
    (rows : list (list string)) (columns : list (string * Z))
    : TestResult unit :=
  csv_header <- match rows with
                | header :: _ => inr header
                | [] => inl (IndexError "list index out of range")
                end ;;
  match csv_header with
  | _ :: _ => inr tt
  | [] => inl (IndexError "pop from empty list")
  end ;;
  assert_columns columns.

End CompetitionResultDatatypesTests.

(** * Vocabulary of the statements *)

(** The events of an [update] that passed the secret check and found a
    status: two printed lines, the dispatch when the status is [SCORING],
    the save. *)
Definition update_events (instance : Submission)
    (validated_data : ValidatedData) (st : Status) : list Event :=
  [EPrint (PStr "Updated to..."); EPrint (PDict validated_data)]
  ++ (if decide (st = SCORING)
      then [ERunSubmission (pk instance) true] else [])
  ++ [ESave (setattrs instance validated_data)].

(** Modelled from the spec: the terminal states of section 4.1. *)
Definition terminal (st : Status) : bool :=
  match st with
  | FINISHED | FAILED | CANCELLED => true
  | _ => false
  end.

(** The row [clone_into] writes for [s] when run in [w]. *)
Definition clone_of (target : Phase) (s : Submission) (w : World) : Submission :=
  {| pk := fresh_pk (submissions w); owner := owner s;
     phase := phase_pk target; parent := None;
     has_children := has_children s; status := SUBMITTING;
     status_details := None; secret := uuid_source w (uuid_drawn w);
     data := data s; description := description s |}.

(** The world after [s] has been cloned and the clone started. *)
Definition after_clone (target : Phase) (s : Submission) (w : World) : World :=
  {| submissions :=
       <[fresh_pk (submissions w) := clone_of target s w]> (submissions w);
     trace := trace w ++ [ESave (clone_of target s w);
                          ERunSubmission (fresh_pk (submissions w)) false];
     uuid_source := uuid_source w;
     uuid_drawn := S (uuid_drawn w) |}.

(** [c] is what section 4.2 asks of the clone of [s]. *)
Definition is_clone (target : Phase) (s c : Submission) : Prop :=
  owner c = owner s /\ data c = data s /\ phase c = phase_pk target
  /\ parent c = None /\ status c = SUBMITTING.

(** What one clone leaves in the trace. *)
Definition clone_events (c : Submission) : list Event :=
  [ESave c; ERunSubmission (pk c) false].

(** Every row is stored under its own primary key. *)
Definition keyed_by_pk (table : gmap Z Submission) : Prop :=
  map_Forall (fun k s => pk s = k) table.

(** The number of children of [p] in the table. *)
Definition children_count (w : World) (p : Submission) : nat :=
  size (filter (fun row : Z * Submission => parent row.2 = Some (pk p))
               (submissions w)).

(** [needle] occurs in [haystack]: some text before it, some after. *)
Definition is_substring (needle haystack : string) : Prop :=
  exists before after, haystack = before +:+ needle +:+ after.

(** The character [c] occurs in [s]. *)
Fixpoint occurs (c : ascii) (s : string) : Prop :=
  match s with
  | EmptyString => False
  | String a rest => a = c \/ occurs c rest
  end.

(** The CSV header of section 4.4: ["participant"], then one
    ["{column_title}({column_id})"] per column that is not hidden, the
    columns being listed by index. *)
Definition visible_header (lb : Leaderboard) : list string :=
  "participant"
  :: ((fun col => col_title col +:+ "(" +:+ pretty (col_pk col) +:+ ")")
        <$> filter (fun col => col_hidden col = false) (lb_columns lb)).

(** The submission [create] stores for a request of [requester] in
    [phase_id], when run in [w]: the entries of [validated_data] where they
    are present, the defaults of the model elsewhere. *)
Definition created_submission (validated_data : ValidatedData)
    (requester phase_id : Z) (w : World) : Submission :=
  {| pk := fresh_pk (submissions w); owner := requester; phase := phase_id;
     parent := None; has_children := false;
     status := default SUBMITTING (vd_status validated_data);
     status_details := default None (vd_status_details validated_data);
     secret := default (uuid_source w (uuid_drawn w))
                       (vd_secret validated_data);
     data := default None (vd_data validated_data);
     description := None |}.

(** The world [create] leaves when it stores [sub]: the row, its save and
    its start, and one [uuid4] draw when the request carried no secret. *)
Definition after_create (validated_data : ValidatedData) (sub : Submission)
    (w : World) : World :=
  {| submissions := <[pk sub := sub]> (submissions w);
     trace := trace w ++ [ESave sub; ERunSubmission (pk sub) false];
     uuid_source := uuid_source w;
     uuid_drawn := match vd_secret validated_data with
                   | Some _ => uuid_drawn w
                   | None => S (uuid_drawn w)
                   end |}.

(** The content the JSON export has for some leaderboards, each given by
    its id, its title and the names of its users: one entry per leaderboard
    under the key the tests expect. *)
Definition content_of (boards : list (Z * string * list string))
    : list (string * list string) :=
  (fun board =>
     (CompetitionResultDatatypesTests.expected_key board.1.2 board.1.1,
      board.2)) <$> boards.

(** The submission [instance] with [sub] as its row. *)
Definition with_submission (sub : Submission) (instance : SubmissionDetail)
    : SubmissionDetail :=
  {| submission := sub; name := name instance;
     created_when := created_when instance; is_public := is_public instance;
     leaderboard := leaderboard instance; scores := scores instance |}.

(** * Concrete data *)

(** A world with the given submissions and nothing done yet. *)
Definition world0 (table : gmap Z Submission) : World :=
  {| submissions := table; trace := []; uuid_source := fun n => Z.of_nat n + 1000;
     uuid_drawn := 0 |}.

Definition upload : Data :=
  {| data_key := "k1"; data_file_name := "submission/2020/03/run.zip" |}.

Definition finished_submission : Submission :=
  {| pk := 7; owner := 1; phase := 10; parent := None; has_children := false;
     status := FINISHED; status_details := None; secret := 424242;
     data := Some upload; description := None |}.

(** [{"status": st, "secret": secret_}], the secret possibly left out. *)
Definition status_only (st : Status) (secret_ : option Z) : ValidatedData :=
  {| vd_data := None; vd_phase := None; vd_status := Some st;
     vd_status_details := None; vd_secret := secret_; vd_owner := None |}.

(** [{"secret": secret_}]: no status. *)
Definition no_status (secret_ : option Z) : ValidatedData :=
  {| vd_data := None; vd_phase := None; vd_status := None;
     vd_status_details := None; vd_secret := secret_; vd_owner := None |}.

Definition competition1 : Competition :=
  {| comp_pk := 1; comp_title := "Iris challenge"; created_by := 1;
     collaborators := [4; 5] |}.

Definition phase_1 : Phase :=
  {| phase_pk := 10; phase_competition := competition1; phase_index := 0 |}.

Definition phase_2 : Phase :=
  {| phase_pk := 11; phase_competition := competition1; phase_index := 1 |}.

Definition leaf (key : Z) : Submission :=
  {| pk := key; owner := 1; phase := 10; parent := None; has_children := false;
     status := FINISHED; status_details := None; secret := 500 + key;
     data := Some upload; description := None |}.

(** The five finished submissions of
    [test_manual_migration_makes_submissions_from_one_phase_in_another]. *)
Definition leaves_world : World :=
  world0 (<[5 := leaf 5]> (<[4 := leaf 4]> (<[3 := leaf 3]>
           (<[2 := leaf 2]> (<[1 := leaf 1]> ∅))))).

Definition group_parent : Submission :=
  {| pk := 1; owner := 1; phase := 10; parent := None; has_children := true;
     status := FINISHED; status_details := None; secret := 501;
     data := Some upload; description := None |}.

Definition group_child (key : Z) : Submission :=
  {| pk := key; owner := 1; phase := 10; parent := Some 1;
     has_children := false; status := FINISHED; status_details := None;
     secret := 500 + key; data := Some upload; description := None |}.

(** The parent and its four children of
    [test_manual_migration_makes_submissions_out_of_only_parents_not_children]. *)
Definition group_world : World :=
  world0 (<[5 := group_child 5]> (<[4 := group_child 4]>
           (<[3 := group_child 3]> (<[2 := group_child 2]>
             (<[1 := group_parent]> ∅))))).

(** An aggregator over leaderboards without scores: empty tables, and a CSV
    that has the header row only. *)
Definition no_scores : Aggregator :=
  {| Table := list (string * list (string * Z));
     compute := fun _ => [];
     csv_rows := fun lb _ => [visible_header lb] |}.

Definition accuracy : Column :=
  {| col_pk := 21; col_title := "accuracy"; col_index := 0; col_hidden := false |}.

Definition duration : Column :=
  {| col_pk := 22; col_title := "duration"; col_index := 1; col_hidden := true |}.

Definition results : Leaderboard :=
  {| lb_pk := 3; lb_competition := 1; lb_title := "Results";
     lb_columns := [accuracy; duration] |}.

Definition results_final : Leaderboard :=
  {| lb_pk := 4; lb_competition := 1; lb_title := "Results (final)";
     lb_columns := [accuracy] |}.

Definition elsewhere : Leaderboard :=
  {| lb_pk := 5; lb_competition := 2; lb_title := "Results";
     lb_columns := [] |}.

Definition baseline : Leaderboard :=
  {| lb_pk := 6; lb_competition := 1; lb_title := "Baseline";
     lb_columns := [] |}.

Definition all_leaderboards : list Leaderboard :=
  [results; results_final; elsewhere; baseline].

(** The data of a competition as the detail view answers it, cut down to
    what [_prepare_competition_data] reads. *)
Definition first_task : list (string * PyVal) :=
  [("name", VStr "Classify"); ("key", VStr "task-key-1")].

Definition second_task : list (string * PyVal) :=
  [("name", VStr "Rank"); ("key", VStr "task-key-2")].

Definition first_phase : list (string * PyVal) :=
  [("name", VStr "Development");
   ("tasks", VList [VDict first_task; VDict second_task]);
   ("index", VInt 0)].

Definition second_phase : list (string * PyVal) :=
  [("name", VStr "Final"); ("tasks", VList [VDict second_task]);
   ("index", VInt 1)].

Definition competition_data : list (string * PyVal) :=
  [("id", VInt 1); ("title", VStr "Iris challenge");
   ("logo", VStr "/media/logos/iris.png");
   ("phases", VList [VDict first_phase; VDict second_phase]);
   ("collaborators", VList [])].

Definition score_at (index_ value : Z) : SubmissionScore :=
  {| column := {| col_pk := 20 + index_; col_title := "metric";
                  col_index := index_; col_hidden := false |};
     score := value |}.

(** A finished submission with three scores, stored out of order. *)
Definition scored_submission : SubmissionDetail :=
  {| submission := finished_submission; name := Some "first try";
     created_when := "2020-03-01T10:00:00Z"; is_public := false;
     leaderboard := Some 3;
     scores := [score_at 2 70; score_at 0 91; score_at 1 12] |}.

(** * Properties *)

Import SubmissionCreationSerializer.

(** ** Secret check of [update] *)

(** C1: when the secret handed to [update] is not the stored one (or is
    missing), the call raises [PermissionError] before anything else is looked
    at, and it leaves the world as it found it: no row is written, nothing is
    printed, nothing is dispatched. *)
Theorem update_wrong_secret_rejected (instance : Submission)
    (validated_data : ValidatedData) (w : World) :
  vd_secret validated_data <> Some (secret instance) ->
  update instance validated_data w
  = (inl (PermissionError "Submission secret invalid"), w).
Proof.
  intros Hsecret. unfold update.
  destruct (decide (Some (secret instance) <> vd_secret validated_data))
    as [_ | Heq]; [reflexivity |].
  exfalso. apply Hsecret. apply dec_stable in Heq. by symmetry.
Qed.

Lemma update_wrong_secret_rejected_witness :
  vd_secret (no_status (Some 1)) <> Some (secret finished_submission)
  /\ update finished_submission (no_status (Some 1))
            (world0 {[ 7 := finished_submission ]})
     = (inl (PermissionError "Submission secret invalid"),
        world0 {[ 7 := finished_submission ]}).
Proof.
  split; [simpl; discriminate |].
  apply update_wrong_secret_rejected. simpl. discriminate.
Defined.

(** ** What an accepted [update] does *)

Lemma pk_setattrs instance validated_data :
  pk (setattrs instance validated_data) = pk instance.
Proof. by destruct validated_data as [[?|] [?|] [?|] [?|] [?|] [?|]]. Qed.

Lemma status_setattrs instance validated_data st :
  vd_status validated_data = Some st ->
  status (setattrs instance validated_data) = st.
Proof.
  destruct validated_data as [[?|] [?|] [?|] [?|] [?|] [?|]];
    simpl; congruence.
Qed.

Lemma update_accepted instance validated_data st w :
  vd_secret validated_data = Some (secret instance) ->
  vd_status validated_data = Some st ->
  update instance validated_data w
  = (inr (setattrs instance validated_data),
     {| submissions :=
          <[pk instance := setattrs instance validated_data]> (submissions w);
        trace := trace w ++ update_events instance validated_data st;
        uuid_source := uuid_source w;
        uuid_drawn := uuid_drawn w |}).
Proof.
  intros Hsecret Hstatus. unfold update, update_events.
  destruct (decide (Some (secret instance) <> vd_secret validated_data))
    as [Hne | _]; [by rewrite Hsecret in Hne |].
  unfold getitem_status, ModelSerializer_update. rewrite Hstatus.
  pose proof (pk_setattrs instance validated_data) as Hpk.
  unfold bind, print, ret, emit.
  destruct (decide (st = SCORING));
    unfold run_submission, emit, save, ret;
    cbn [trace submissions uuid_source uuid_drawn];
    rewrite Hpk, <- !(assoc_L (++)); reflexivity.
Qed.

Lemma update_no_status instance validated_data w :
  vd_secret validated_data = Some (secret instance) ->
  vd_status validated_data = None ->
  update instance validated_data w
  = (inl (KeyError "status"),
     {| submissions := submissions w;
        trace := trace w ++ [EPrint (PStr "Updated to...");
                             EPrint (PDict validated_data)];
        uuid_source := uuid_source w;
        uuid_drawn := uuid_drawn w |}).
Proof.
  intros Hsecret Hstatus. unfold update.
  destruct (decide (Some (secret instance) <> vd_secret validated_data))
    as [Hne | _]; [by rewrite Hsecret in Hne |].
  unfold getitem_status. rewrite Hstatus.
  cbn. rewrite <- (assoc_L (++)). reflexivity.
Qed.

(** C2: an [update] that passes the secret check calls [run_submission]
    exactly when the requested status is [SCORING]: then there is one call,
    for this submission and with [is_scoring=True], it comes before the only
    save, and the saved row carries the status [SCORING]; for any other
    status, and when no status is given, there is no call at all. *)
Theorem update_dispatches_iff_scoring (instance : Submission)
    (validated_data : ValidatedData) (w : World) :
  vd_secret validated_data = Some (secret instance) ->
  exists events,
    trace (update instance validated_data w).2 = trace w ++ events
    /\ (vd_status validated_data = Some SCORING ->
        run_submission_calls events = [(pk instance, true)]
        /\ exists before after row,
             events = before ++ ERunSubmission (pk instance) true :: after
             /\ saved_rows before = []
             /\ saved_rows after = [row]
             /\ status row = SCORING
             /\ submissions (update instance validated_data w).2
                  !! pk instance = Some row)
    /\ (vd_status validated_data <> Some SCORING ->
        run_submission_calls events = []).
Proof.
  intros Hsecret.
  destruct (vd_status validated_data) as [st |] eqn:Hstatus.
  - rewrite (update_accepted _ _ st) by done.
    exists (update_events instance validated_data st). cbn.
    split; [done |]. unfold update_events. split.
    + intros [= ->]. rewrite decide_True by done. split; [done |].
      exists [EPrint (PStr "Updated to..."); EPrint (PDict validated_data)],
        [ESave (setattrs instance validated_data)],
        (setattrs instance validated_data).
      repeat split; [by apply status_setattrs | by rewrite lookup_insert_eq].
    + intros Hne. rewrite decide_False by congruence. done.
  - rewrite update_no_status by done.
    eexists. cbn. split; [done |]. split; [done |]. done.
Qed.

Lemma update_dispatches_iff_scoring_witness :
  vd_secret (status_only SCORING (Some 424242))
  = Some (secret finished_submission)
  /\ exists events,
    trace (update finished_submission (status_only SCORING (Some 424242))
             (world0 {[ 7 := finished_submission ]})).2
    = trace (world0 {[ 7 := finished_submission ]}) ++ events
    /\ (vd_status (status_only SCORING (Some 424242)) = Some SCORING ->
        run_submission_calls events = [(pk finished_submission, true)]
        /\ exists before after row,
             events = before ++ ERunSubmission (pk finished_submission) true :: after
             /\ saved_rows before = []
             /\ saved_rows after = [row]
             /\ status row = SCORING
             /\ submissions
                  (update finished_submission (status_only SCORING (Some 424242))
                     (world0 {[ 7 := finished_submission ]})).2
                  !! pk finished_submission = Some row)
    /\ (vd_status (status_only SCORING (Some 424242)) <> Some SCORING ->
        run_submission_calls events = []).
Proof.
  split; [reflexivity |].
  apply update_dispatches_iff_scoring. reflexivity.
Defined.

(** ** No transition check in [update] *)

(** C3, counterexample: a submission stored as [FINISHED], a terminal state,
    is sent [RUNNING] with the right secret.  The call does not raise
    [InvalidTransitionError]: it returns, and the stored status is now
    [RUNNING]. *)
Lemma update_leaves_terminal_state :
  let w := world0 {[ 7 := finished_submission ]} in
  let outcome :=
    update finished_submission (status_only RUNNING (Some 424242)) w in
  terminal (status finished_submission) = true
  /\ status <$> submissions w !! 7 = Some FINISHED
  /\ outcome.1 <> inl InvalidTransitionError
  /\ (exists row, outcome.1 = inr row /\ status row = RUNNING)
  /\ status <$> submissions outcome.2 !! 7 = Some RUNNING.
Proof.
  cbn zeta. rewrite (update_accepted _ _ RUNNING) by reflexivity.
  split; [reflexivity |]. split; [reflexivity |].
  split; [discriminate |]. split; [by eexists |].
  cbn. by rewrite lookup_insert_eq.
Qed.

(** C3, as the code has it: [update] checks no transition.  Whatever the
    current status of the submission, terminal or not, and whatever status is
    requested, an update that passes the secret check returns the instance
    with the requested status and stores it; it never raises
    [InvalidTransitionError]. *)
Theorem update_accepts_any_status (instance : Submission)
    (validated_data : ValidatedData) (st : Status) (w : World) :
  vd_secret validated_data = Some (secret instance) ->
  vd_status validated_data = Some st ->
  exists row w',
    update instance validated_data w = (inr row, w')
    /\ status row = st
    /\ submissions w' !! pk instance = Some row.
Proof.
  intros Hsecret Hstatus.
  rewrite (update_accepted _ _ st) by done.
  eexists _, _. split; [reflexivity |].
  split; [by apply status_setattrs |].
  cbn. by rewrite lookup_insert_eq.
Qed.

Lemma update_accepts_any_status_witness :
  vd_secret (status_only SUBMITTING (Some 424242))
  = Some (secret finished_submission)
  /\ vd_status (status_only SUBMITTING (Some 424242)) = Some SUBMITTING
  /\ exists row w',
    update finished_submission (status_only SUBMITTING (Some 424242))
      (world0 {[ 7 := finished_submission ]}) = (inr row, w')
    /\ status row = SUBMITTING
    /\ submissions w' !! pk finished_submission = Some row.
Proof.
  split; [reflexivity |]. split; [reflexivity |].
  apply update_accepts_any_status; reflexivity.
Defined.

(** ** New primary keys *)

Lemma fresh_pk_above (table : gmap Z Submission) k :
  is_Some (table !! k) -> k < fresh_pk table.
Proof.
  unfold fresh_pk.
  enough (k <= map_fold (fun k _ acc => Z.max k acc) 0 table
          \/ table !! k = None) as [? | Hnone].
  { lia. }
  { intros [? ?]. congruence. }
  revert k.
  apply (map_fold_weak_ind
           (fun acc (m : gmap Z Submission) =>
              forall k, k <= acc \/ m !! k = None)).
  - intros k. right. apply lookup_empty.
  - intros i x m acc _ IH k.
    destruct (decide (i = k)) as [-> | Hne]; [left; lia |].
    rewrite lookup_insert_ne by done.
    destruct (IH k); [left; lia | by right].
Qed.

Lemma fresh_pk_unused (table : gmap Z Submission) :
  table !! fresh_pk table = None.
Proof.
  destruct (table !! fresh_pk table) eqn:Hlookup; [| done].
  assert (fresh_pk table < fresh_pk table); [| lia].
  apply fresh_pk_above. by eexists.
Qed.

(** ** [create] *)

(** C9: for a creation request whose context names the requester and whose
    data name a phase, [create] returns a new submission owned by the
    requester of the context (whatever owner the data carried), stored under
    a primary key that was unused before; what the call leaves behind is that
    one save followed by one start of the same submission, nothing else. *)
Theorem create_owned_saved_started (context : Context)
    (validated_data : ValidatedData) (requester phase_id : Z) (w : World) :
  ctx_owner context = Some requester ->
  vd_phase validated_data = Some phase_id ->
  exists sub w',
    create context validated_data w = (inr sub, w')
    /\ owner sub = requester
    /\ phase sub = phase_id
    /\ submissions w !! pk sub = None
    /\ submissions w' !! pk sub = Some sub
    /\ trace w' = trace w ++ [ESave sub; ERunSubmission (pk sub) false].
Proof.
  intros Hctx Hphase.
  unfold create, getitem_owner, ModelSerializer_create, setitem_owner.
  rewrite Hctx. cbn [vd_secret vd_status vd_status_details vd_data vd_owner vd_phase].
  rewrite Hphase.
  destruct (vd_secret validated_data), (vd_status validated_data),
    (vd_status_details validated_data), (vd_data validated_data);
    cbn; (eexists _, _; split; [reflexivity |]; cbn;
          rewrite lookup_insert_eq, <- (assoc_L (++));
          auto 10 using fresh_pk_unused).
Qed.

Lemma create_owned_saved_started_witness :
  ctx_owner {| ctx_owner := Some 3 |} = Some 3
  /\ vd_phase {| vd_data := Some (Some upload); vd_phase := Some 10;
                 vd_status := None; vd_status_details := None;
                 vd_secret := None; vd_owner := Some 99 |} = Some 10
  /\ exists sub w',
    create {| ctx_owner := Some 3 |}
      {| vd_data := Some (Some upload); vd_phase := Some 10;
         vd_status := None; vd_status_details := None;
         vd_secret := None; vd_owner := Some 99 |}
      (world0 {[ 7 := finished_submission ]}) = (inr sub, w')
    /\ owner sub = 3
    /\ phase sub = 10
    /\ submissions (world0 {[ 7 := finished_submission ]}) !! pk sub = None
    /\ submissions w' !! pk sub = Some sub
    /\ trace w' = trace (world0 {[ 7 := finished_submission ]})
                  ++ [ESave sub; ERunSubmission (pk sub) false].
Proof.
  split; [reflexivity |]. split; [reflexivity |].
  apply create_owned_saved_started; reflexivity.
Defined.

(** ** The secret is write-only *)

Lemma readable_fields_eq :
  readable_fields
  = ["id"; "data"; "phase"; "status"; "status_details"; "filename";
     "description"].
Proof. reflexivity. Qed.

(** C10: what the creation serializer renders for a submission does not
    depend on its secret: replacing the stored secret by any other value
    gives the same output (or the same error, when there is no data to take
    the file name from).  The key ["secret"] is not among the rendered keys,
    which are the other seven fields of [Meta.fields], and no rendered value
    is a UUID. *)
Theorem to_representation_hides_secret (instance : Submission) (u : Z) :
  to_representation (set_secret u instance) = to_representation instance
  /\ ("secret" ∉ readable_fields)
  /\ match to_representation instance with
     | inr out =>
         out.*1 = readable_fields
         /\ ("secret" ∉ out.*1)
         /\ Forall (fun v => match v with JUuid _ => False | _ => True end)
                   out.*2
     | inl e => data instance = None
     end.
Proof.
  assert ("secret" ∉ readable_fields) as Hkey.
  { rewrite readable_fields_eq. rewrite !not_elem_of_cons.
    repeat split; try discriminate. apply not_elem_of_nil. }
  split; [| split; [done |]].
  - unfold to_representation. rewrite readable_fields_eq.
    destruct instance as [? ? ? ? ? ? ? ? [d |] ?]; reflexivity.
  - destruct (to_representation instance) as [e | out] eqn:Hout.
    + unfold to_representation in Hout. rewrite readable_fields_eq in Hout.
      destruct instance as [? ? ? ? ? ? ? ? [d |] ?]; [discriminate | done].
    + assert (out.*1 = readable_fields) as Hkeys.
      { unfold to_representation in Hout. rewrite readable_fields_eq in *.
        destruct instance as [? ? ? ? ? ? ? ? [d |] ?];
          [| discriminate]. by injection Hout as <-. }
      split; [done |]. split; [by rewrite Hkeys |].
      unfold to_representation in Hout. rewrite readable_fields_eq in Hout.
      destruct instance as [? ? ? ? ? ? [?|] ? [d |] [?|]];
        try discriminate; injection Hout as <-; repeat constructor.
Qed.

(** ** Counting rows *)

Section counting.
Context (P : Z * Submission -> Prop) `{!forall row, Decision (P row)}.

Lemma filter_map_to_list (table : gmap Z Submission) :
  filter P (map_to_list table) ≡ₚ map_to_list (filter P table).
Proof.
  induction table as [| k row table Hfree IH] using map_ind.
  - by rewrite map_filter_empty, !map_to_list_empty.
  - rewrite (map_to_list_insert table k row Hfree), filter_cons.
    rewrite map_filter_insert. destruct (decide (P (k, row))).
    + rewrite map_to_list_insert
        by (apply map_lookup_filter_None; by left).
      by rewrite IH.
    + by rewrite delete_id.
Qed.

Lemma length_filter_map_to_list (table : gmap Z Submission) :
  length (filter P (map_to_list table)) = size (filter P table).
Proof. by rewrite filter_map_to_list, length_map_to_list. Qed.

Lemma size_filter_insert_fresh (table : gmap Z Submission) k row :
  table !! k = None ->
  size (filter P (<[k := row]> table))
  = (size (filter P table) + if decide (P (k, row)) then 1 else 0)%nat.
Proof.
  intros Hfree. rewrite map_filter_insert.
  destruct (decide (P (k, row))).
  - rewrite map_size_insert_None
      by (apply map_lookup_filter_None; by left).
    lia.
  - rewrite delete_id by done. lia.
Qed.
End counting.

Lemma submissions_count_insert_fresh w w' k row phase_id :
  submissions w !! k = None ->
  submissions w' = <[k := row]> (submissions w) ->
  submissions_count w' phase_id
  = (submissions_count w phase_id
     + if decide (phase row = phase_id) then 1 else 0)%nat.
Proof.
  intros Hfree Heq. unfold submissions_count.
  rewrite Heq, size_filter_insert_fresh by done. cbn.
  by destruct (decide (phase row = phase_id)).
Qed.

Lemma filter_fmap {A B} (f : A -> B) (Q : B -> Prop)
    `{!forall b, Decision (Q b)} (l : list A) :
  filter Q (f <$> l) = f <$> filter (fun a => Q (f a)) l.
Proof.
  induction l as [| a l IH]; [done |].
  rewrite fmap_cons, !filter_cons, IH.
  by destruct (decide (Q (f a))).
Qed.

Lemma length_top_level (table : gmap Z Submission) (source : Phase) :
  length (PhaseMigration.top_level table source)
  = size (filter (fun row : Z * Submission =>
                    phase row.2 = phase_pk source /\ parent row.2 = None)
                 table).
Proof.
  unfold PhaseMigration.top_level.
  rewrite <- length_filter_map_to_list.
  rewrite filter_fmap, length_fmap. reflexivity.
Qed.

(** ** The migration loop *)

Lemma migrate_each_cons target s rest counts w :
  PhaseMigration.migrate_each target (s :: rest) counts w
  = PhaseMigration.migrate_each target rest
      {| created := S (created counts); triggered := S (triggered counts) |}
      (after_clone target s w).
Proof.
  cbn [PhaseMigration.migrate_each]. unfold bind at 1.
  change (PhaseMigration.clone_into target s w)
    with (inr (B := Submission) (A := Error) (clone_of target s w),
          {| submissions :=
               <[fresh_pk (submissions w) := clone_of target s w]> (submissions w);
             trace := trace w ++ [ESave (clone_of target s w)];
             uuid_source := uuid_source w;
             uuid_drawn := S (uuid_drawn w) |}).
  cbn iota. unfold bind at 1, start, run_submission, emit.
  cbn [submissions trace uuid_source uuid_drawn pk clone_of].
  unfold after_clone. rewrite <- (assoc_L (++)). reflexivity.
Qed.

Lemma migrate_each_run target selected : forall counts w,
  exists clones w',
    PhaseMigration.migrate_each target selected counts w
    = (inr {| created := (created counts + length selected)%nat;
              triggered := (triggered counts + length selected)%nat |}, w')
    /\ Forall2 (is_clone target) selected clones
    /\ trace w' = trace w ++ (clones ≫= clone_events)
    /\ (forall phase_id,
          submissions_count w' phase_id
          = (submissions_count w phase_id
             + if decide (phase_pk target = phase_id)
               then length selected else 0)%nat)
    /\ (forall k row, submissions w !! k = Some row ->
                      submissions w' !! k = Some row)
    /\ Forall (fun c => submissions w !! pk c = None
                        /\ submissions w' !! pk c = Some c) clones.
Proof.
  induction selected as [| s rest IH]; intros counts w.
  - exists [], w. cbn. rewrite !Nat.add_0_r, app_nil_r.
    destruct counts. repeat split; auto.
    intros phase_id. case_decide; lia.
  - rewrite migrate_each_cons.
    destruct (IH {| created := S (created counts);
                    triggered := S (triggered counts) |}
                 (after_clone target s w))
      as (clones & w' & -> & Hclones & Htrace & Hcount & Hkeep & Hnew).
    pose proof (fresh_pk_unused (submissions w)) as Hfree.
    exists (clone_of target s w :: clones), w'.
    split; [cbn; do 3 f_equal; lia |].
    split; [constructor; [by repeat split | done] |].
    split.
    { rewrite Htrace. cbn. by rewrite <- (assoc_L (++)). }
    split.
    { intros phase_id. rewrite Hcount.
      rewrite (submissions_count_insert_fresh w (after_clone target s w)
                 (fresh_pk (submissions w)) (clone_of target s w))
        by done.
      cbn. case_decide; lia. }
    split.
    { intros k row Hrow. apply Hkeep. cbn.
      rewrite lookup_insert_ne; [done |]. intros <-. congruence. }
    constructor.
    + split; [done |]. apply Hkeep. cbn. by rewrite lookup_insert_eq.
    + eapply Forall_impl; [exact Hnew |]. cbn.
      intros c [Hc1 Hc2]. split; [| done].
      destruct (decide (fresh_pk (submissions w) = pk c)) as [Heq | Hne].
      * rewrite Heq, lookup_insert_eq in Hc1. discriminate.
      * by rewrite lookup_insert_ne in Hc1.
Qed.

Lemma run_submission_calls_clones clones :
  run_submission_calls (clones ≫= clone_events)
  = (fun c => (pk c, false)) <$> clones.
Proof.
  induction clones as [| c clones IH]; [done |].
  rewrite bind_cons, fmap_cons, <- IH. reflexivity.
Qed.

Lemma saved_rows_clones clones :
  saved_rows (clones ≫= clone_events) = clones.
Proof.
  induction clones as [| c clones IH]; [done |].
  rewrite bind_cons. unfold saved_rows in *. rewrite omap_app, IH.
  reflexivity.
Qed.

Lemma is_admin_true requester c :
  PhaseMigration.is_admin requester c = true
  <-> requester = created_by c \/ requester ∈ collaborators c.
Proof.
  unfold PhaseMigration.is_admin.
  rewrite orb_true_iff, !bool_decide_eq_true. reflexivity.
Qed.

Lemma migrate_run source target requester w :
  PhaseMigration.is_admin requester (phase_competition source) = true ->
  PhaseMigration.migrate source target requester w
  = PhaseMigration.migrate_each target
      (PhaseMigration.top_level (submissions w) source)
      {| created := 0; triggered := 0 |} w.
Proof. intros Hadmin. unfold PhaseMigration.migrate. by rewrite Hadmin. Qed.

(** ** Migration of leaf submissions *)

(** C5: the source phase holds [n] submissions, none of which has a parent or
    children.  Migrating it into another phase, by a requester allowed to,
    succeeds and reports [n] submissions created and [n] dispatches; there are
    [n] saves and [n] calls of [run_submission] in what it leaves behind, the
    target phase counts [n] submissions more and the source phase as many as
    before. *)
Theorem migrate_leaf_submissions (source target : Phase) (requester : Z)
    (w : World) (n : nat) :
  PhaseMigration.is_admin requester (phase_competition source) = true ->
  phase_pk source <> phase_pk target ->
  map_Forall (fun _ s => phase s = phase_pk source ->
                          parent s = None /\ has_children s = false)
             (submissions w) ->
  submissions_count w (phase_pk source) = n ->
  exists result w' events,
    PhaseMigration.migrate source target requester w = (inr result, w')
    /\ created result = n
    /\ triggered result = n
    /\ trace w' = trace w ++ events
    /\ length (saved_rows events) = n
    /\ length (run_submission_calls events) = n
    /\ submissions_count w' (phase_pk target)
       = (submissions_count w (phase_pk target) + n)%nat
    /\ submissions_count w' (phase_pk source) = n.
Proof.
  intros Hadmin Hdistinct Hleaves Hn.
  assert (length (PhaseMigration.top_level (submissions w) source) = n)
    as Hselected.
  { rewrite length_top_level, <- Hn. unfold submissions_count. f_equal.
    apply map_filter_ext. intros k s Hrow. cbn. split; [tauto |].
    intros Hphase. split; [done |]. by destruct (Hleaves k s Hrow Hphase). }
  rewrite migrate_run by done.
  destruct (migrate_each_run target
              (PhaseMigration.top_level (submissions w) source)
              {| created := 0; triggered := 0 |} w)
    as (clones & w' & Hrun & Hclones & Htrace & Hcount & _ & _).
  apply Forall2_length in Hclones.
  exists {| created := n; triggered := n |}, w', (clones ≫= clone_events).
  split; [by rewrite Hrun, Hselected |].
  split; [done |]. split; [done |]. split; [done |].
  split; [rewrite saved_rows_clones; congruence |].
  split; [rewrite run_submission_calls_clones, length_fmap; congruence |].
  split.
  - rewrite Hcount, decide_True by done. by rewrite Hselected.
  - rewrite Hcount, decide_False by done. lia.
Qed.

Lemma migrate_leaf_submissions_witness :
  PhaseMigration.is_admin 1 (phase_competition phase_1) = true
  /\ phase_pk phase_1 <> phase_pk phase_2
  /\ map_Forall (fun _ s => phase s = phase_pk phase_1 ->
                            parent s = None /\ has_children s = false)
                (submissions leaves_world)
  /\ submissions_count leaves_world (phase_pk phase_1) = 5%nat
  /\ exists result w' events,
    PhaseMigration.migrate phase_1 phase_2 1 leaves_world = (inr result, w')
    /\ created result = 5%nat
    /\ triggered result = 5%nat
    /\ trace w' = trace leaves_world ++ events
    /\ length (saved_rows events) = 5%nat
    /\ length (run_submission_calls events) = 5%nat
    /\ submissions_count w' (phase_pk phase_2)
       = (submissions_count leaves_world (phase_pk phase_2) + 5)%nat
    /\ submissions_count w' (phase_pk phase_1) = 5%nat.
Proof.
  assert (map_Forall (fun _ s => phase s = phase_pk phase_1 ->
                                 parent s = None /\ has_children s = false)
                     (submissions leaves_world)) as Hleaves.
  { apply (bool_decide_unpack _). vm_compute. exact I. }
  split; [reflexivity |]. split; [discriminate |]. split; [exact Hleaves |].
  split; [vm_compute; reflexivity |].
  apply migrate_leaf_submissions;
    [reflexivity | discriminate | exact Hleaves | vm_compute; reflexivity].
Defined.

(** ** Migration of a parent and its children *)

Lemma top_level_group (table : gmap Z Submission) (source : Phase)
    (p : Submission) :
  keyed_by_pk table ->
  table !! pk p = Some p ->
  phase p = phase_pk source ->
  parent p = None ->
  map_Forall (fun _ s => phase s = phase_pk source ->
                          s = p \/ parent s = Some (pk p)) table ->
  PhaseMigration.top_level table source = [p].
Proof.
  intros Hkeys Hp Hphase Hparent Hgroup.
  apply Permutation_singleton_r.
  unfold PhaseMigration.top_level.
  rewrite filter_fmap, filter_map_to_list.
  assert (filter (fun row : Z * Submission =>
                    phase row.2 = phase_pk source /\ parent row.2 = None)
                 table = {[ pk p := p ]}) as ->.
  { apply map_eq. intros k. apply option_eq. intros s.
    rewrite map_lookup_filter_Some, lookup_singleton_Some. cbn. split.
    - intros (Hrow & Hsrc & Hnone).
      destruct (Hgroup k s Hrow Hsrc) as [-> | Hchild]; [| congruence].
      split; [| done]. exact (Hkeys k p Hrow).
    - intros [<- ->]. done. }
  by rewrite map_to_list_singleton.
Qed.

(** C4: the source phase holds a parent submission [p] (no parent of its own,
    [has_children] set) and its [K] children, and nothing else.  Migrating it,
    by a requester allowed to, succeeds and reports one submission created and
    one dispatch whatever [K] is: what it leaves behind is the save of one
    clone of [p] (same owner and data, no parent, in the target phase, under a
    primary key unused before) and one call of [run_submission] for that
    clone.  The target phase counts one submission more, and no child has been
    added: [p] still has [K] children. *)
Theorem migrate_parent_with_children (source target : Phase) (requester : Z)
    (w : World) (p : Submission) (K : nat) :
  PhaseMigration.is_admin requester (phase_competition source) = true ->
  keyed_by_pk (submissions w) ->
  submissions w !! pk p = Some p ->
  phase p = phase_pk source ->
  parent p = None ->
  has_children p = true ->
  map_Forall (fun _ s => phase s = phase_pk source ->
                          s = p \/ parent s = Some (pk p)) (submissions w) ->
  children_count w p = K ->
  exists clone w',
    PhaseMigration.migrate source target requester w
    = (inr {| created := 1; triggered := 1 |}, w')
    /\ is_clone target p clone
    /\ submissions w !! pk clone = None
    /\ submissions w' = <[pk clone := clone]> (submissions w)
    /\ trace w' = trace w ++ [ESave clone; ERunSubmission (pk clone) false]
    /\ submissions_count w' (phase_pk target)
       = S (submissions_count w (phase_pk target))
    /\ children_count w' p = K.
Proof.
  intros Hadmin Hkeys Hp Hphase Hparent _ Hgroup HK.
  rewrite migrate_run by done.
  rewrite (top_level_group _ _ p) by done.
  rewrite migrate_each_cons.
  pose proof (fresh_pk_unused (submissions w)) as Hfree.
  exists (clone_of target p w), (after_clone target p w).
  split; [reflexivity |]. split; [by repeat split |].
  split; [done |]. split; [reflexivity |]. split; [reflexivity |].
  split.
  - rewrite (submissions_count_insert_fresh w _ _ (clone_of target p w))
      by done.
    cbn. rewrite decide_True by done. lia.
  - unfold children_count in *. cbn [submissions after_clone].
    rewrite size_filter_insert_fresh by done. cbn.
    rewrite decide_False by discriminate. lia.
Qed.

Lemma migrate_parent_with_children_witness :
  PhaseMigration.is_admin 1 (phase_competition phase_1) = true
  /\ keyed_by_pk (submissions group_world)
  /\ submissions group_world !! pk group_parent = Some group_parent
  /\ phase group_parent = phase_pk phase_1
  /\ parent group_parent = None
  /\ has_children group_parent = true
  /\ map_Forall (fun _ s => phase s = phase_pk phase_1 ->
                            s = group_parent \/ parent s = Some (pk group_parent))
                (submissions group_world)
  /\ children_count group_world group_parent = 4%nat
  /\ exists clone w',
    PhaseMigration.migrate phase_1 phase_2 1 group_world
    = (inr {| created := 1; triggered := 1 |}, w')
    /\ is_clone phase_2 group_parent clone
    /\ submissions group_world !! pk clone = None
    /\ submissions w' = <[pk clone := clone]> (submissions group_world)
    /\ trace w' = trace group_world
                  ++ [ESave clone; ERunSubmission (pk clone) false]
    /\ submissions_count w' (phase_pk phase_2)
       = S (submissions_count group_world (phase_pk phase_2))
    /\ children_count w' group_parent = 4%nat.
Proof.
  assert (keyed_by_pk (submissions group_world)) as Hkeys.
  { apply (bool_decide_unpack _). vm_compute. exact I. }
  assert (map_Forall (fun _ s => phase s = phase_pk phase_1 ->
                        s = group_parent \/ parent s = Some (pk group_parent))
                     (submissions group_world)) as Hgroup.
  { apply (bool_decide_unpack _). vm_compute. exact I. }
  assert (children_count group_world group_parent = 4%nat) as HK.
  { vm_compute. reflexivity. }
  repeat (split; [first [reflexivity | assumption] |]).
  apply migrate_parent_with_children;
    first [reflexivity | assumption].
Defined.

(** ** Permission to migrate *)

(** C6: a requester who is neither the creator nor a collaborator of the
    competition of the source phase gets [PermissionError] and the world is
    left as it was, so no submission is created; for the creator and for a
    collaborator the migration succeeds. *)
Theorem migrate_checks_permission (source target : Phase) (requester : Z)
    (w : World) :
  (requester <> created_by (phase_competition source)
   /\ requester ∉ collaborators (phase_competition source) ->
   PhaseMigration.migrate source target requester w
   = (inl (PermissionError
             "You do not have administrative permissions for this competition"),
      w))
  /\ (requester = created_by (phase_competition source)
      \/ requester ∈ collaborators (phase_competition source) ->
      exists result w',
        PhaseMigration.migrate source target requester w = (inr result, w')).
Proof.
  split.
  - intros [Hcreator Hcollab]. unfold PhaseMigration.migrate.
    destruct (PhaseMigration.is_admin requester (phase_competition source))
      eqn:Hadmin; [| reflexivity].
    apply is_admin_true in Hadmin. tauto.
  - intros Hadmin. apply is_admin_true in Hadmin.
    rewrite migrate_run by done.
    destruct (migrate_each_run target
                (PhaseMigration.top_level (submissions w) source)
                {| created := 0; triggered := 0 |} w)
      as (clones & w' & -> & _).
    by eexists _, _.
Qed.

Lemma migrate_checks_permission_witness :
  ((9 <> created_by (phase_competition phase_1)
    /\ 9 ∉ collaborators (phase_competition phase_1))
   /\ PhaseMigration.migrate phase_1 phase_2 9 leaves_world
      = (inl (PermissionError
                "You do not have administrative permissions for this competition"),
         leaves_world))
  /\ ((4 = created_by (phase_competition phase_1)
       \/ 4 ∈ collaborators (phase_competition phase_1))
      /\ exists result w',
        PhaseMigration.migrate phase_1 phase_2 4 leaves_world
        = (inr result, w')).
Proof.
  assert (9 <> created_by (phase_competition phase_1)
          /\ 9 ∉ collaborators (phase_competition phase_1)) as Hother.
  { split; [discriminate |]. apply (bool_decide_unpack _). vm_compute. exact I. }
  assert (4 = created_by (phase_competition phase_1)
          \/ 4 ∈ collaborators (phase_competition phase_1)) as Hcollab.
  { right. apply (bool_decide_unpack _). vm_compute. exact I. }
  split; (split; [assumption |]).
  - exact (proj1 (migrate_checks_permission phase_1 phase_2 9 leaves_world)
             Hother).
  - exact (proj2 (migrate_checks_permission phase_1 phase_2 4 leaves_world)
             Hcollab).
Defined.

(** ** Strings: containment and the composite key *)

Lemma starts_with_spec needle : forall haystack,
  ResultExport.starts_with needle haystack = true
  <-> exists after, haystack = needle +:+ after.
Proof.
  induction needle as [| a needle IH]; intros haystack; cbn.
  - split; [by exists haystack | done].
  - destruct haystack as [| b haystack].
    + split; [done | by intros [? ?]].
    + rewrite andb_true_iff, Ascii.eqb_eq, IH. split.
      * intros [-> [after ->]]. by exists after.
      * intros [after [= -> ->]]. split; [done | by exists after].
Qed.

Lemma contains_spec needle : forall haystack,
  ResultExport.contains needle haystack = true
  <-> is_substring needle haystack.
Proof.
  unfold is_substring.
  induction haystack as [| b haystack IH]; cbn;
    rewrite orb_true_iff, starts_with_spec.
  - split.
    + intros [[after Hafter] | ?]; [| done]. by exists "", after.
    + intros ([| ? ?] & after & Heq); [| done]. left. by exists after.
  - rewrite IH. split.
    + intros [[after Hafter] | (before & after & ->)].
      * by exists "", after.
      * by exists (String b before), after.
    + intros ([| a before] & after & Heq).
      * left. by exists after.
      * right. injection Heq as -> ->. by exists before, after.
Qed.

Lemma split_at_last c : forall t1 t2 u1 u2,
  ~ occurs c u1 -> ~ occurs c u2 ->
  t1 +:+ String c u1 = t2 +:+ String c u2 ->
  t1 = t2 /\ u1 = u2.
Proof.
  induction t1 as [| a t1 IH]; intros [| b t2] u1 u2 Hu1 Hu2 Heq; simpl in Heq.
  - by injection Heq.
  - injection Heq as -> ->. exfalso. apply Hu1.
    clear. induction t2 as [| ? ? IHt]; simpl; auto.
  - injection Heq as -> <-. exfalso. apply Hu2.
    clear. induction t1 as [| ? ? IHt]; simpl; auto.
  - injection Heq as -> Heq.
    destruct (IH t2 u1 u2 Hu1 Hu2 Heq) as [-> ->]. done.
Qed.

Lemma occurs_app c s1 s2 :
  occurs c (s1 +:+ s2) <-> occurs c s1 \/ occurs c s2.
Proof. induction s1 as [| a s1 IH]; simpl; [tauto | rewrite IH; tauto]. Qed.

Lemma pretty_N_char_no_paren d : pretty_N_char d <> "("%char.
Proof. unfold pretty_N_char. repeat case_match; discriminate. Qed.

Lemma pretty_N_go_no_paren x : forall s,
  ~ occurs "(" s -> ~ occurs "(" (pretty_N_go x s).
Proof.
  induction (N.lt_wf_0 x) as [x _ IH]. intros s Hs.
  destruct (decide (0 < x)%N) as [Hpos | Hzero].
  - rewrite pretty_N_go_step by done.
    apply IH; [by apply N.div_lt |].
    cbn. intros [Hchar | ?]; [| done].
    by apply pretty_N_char_no_paren in Hchar.
  - assert (x = 0%N) as -> by lia. done.
Qed.

Lemma pretty_Z_no_paren (n : Z) : ~ occurs "(" (pretty n).
Proof.
  assert (forall p : positive, ~ occurs "(" (pretty p)) as Hpos.
  { intros p. unfold pretty, pretty_positive, pretty, pretty_N.
    rewrite decide_False by done. apply pretty_N_go_no_paren. cbn. tauto. }
  destruct n as [| p | p]; unfold pretty, pretty_Z.
  - cbn. intros [? | ?]; [discriminate | done].
  - apply Hpos.
  - cbn. intros [? | ?]; [discriminate |]. by apply (Hpos p).
Qed.

(** The composite key can be read back: the title is what stands before the
    last opening parenthesis, the identifier what stands after it. *)
Lemma leaderboard_key_inj lb1 lb2 :
  ResultExport.leaderboard_key lb1 = ResultExport.leaderboard_key lb2 ->
  lb_title lb1 = lb_title lb2 /\ lb_pk lb1 = lb_pk lb2.
Proof.
  unfold ResultExport.leaderboard_key. cbn. intros Heq.
  apply split_at_last in Heq as [Htitle Hid].
  - split; [done |].
    apply (split_at_last ")" _ _ "" "") in Hid as [Hid _]; [| cbn; tauto ..].
    by apply (inj pretty).
  - rewrite occurs_app. cbn. intros [? | [? | ?]];
      [by eapply pretty_Z_no_paren | discriminate | done].
  - rewrite occurs_app. cbn. intros [? | [? | ?]];
      [by eapply pretty_Z_no_paren | discriminate | done].
Qed.

Lemma csv_name_inj key1 key2 :
  key1 +:+ ".csv" = key2 +:+ ".csv" -> key1 = key2.
Proof.
  intros Heq. apply (split_at_last "." _ _ "csv" "csv") in Heq as [? _];
    [done | cbn; intros ?; intuition discriminate ..].
Qed.

(** ** Leaderboards in scope *)

Lemma NoDup_fmap_eq {A B} (f : A -> B) (l : list A) x y :
  NoDup (f <$> l) -> x ∈ l -> y ∈ l -> f x = f y -> x = y.
Proof.
  induction l as [| a l IH]; [by intros _ ?%elem_of_nil |].
  rewrite fmap_cons, NoDup_cons, !elem_of_cons.
  intros [Ha Hl] [-> | Hx] [-> | Hy] Heq; auto.
  - destruct Ha. rewrite Heq. by apply list_elem_of_fmap_2.
  - destruct Ha. rewrite <- Heq. by apply list_elem_of_fmap_2.
Qed.


Lemma elem_of_in_scope leaderboards c selector lb :
  lb ∈ ResultExport.in_scope leaderboards c selector
  <-> lb ∈ leaderboards /\ lb_competition lb = comp_pk c
      /\ ResultExport.matches selector lb = true.
Proof.
  unfold ResultExport.in_scope. rewrite list_elem_of_filter. tauto.
Qed.

Lemma NoDup_keys_in_scope leaderboards c selector :
  NoDup (lb_pk <$> leaderboards) ->
  NoDup (ResultExport.leaderboard_key
           <$> ResultExport.in_scope leaderboards c selector).
Proof.
  intros Hpks. apply NoDup_fmap_2_strong.
  - intros lb1 lb2 [H1 _]%elem_of_in_scope [H2 _]%elem_of_in_scope Hkey.
    apply leaderboard_key_inj in Hkey as [_ Hpk].
    by apply (NoDup_fmap_eq lb_pk leaderboards).
  - apply NoDup_filter. by apply NoDup_fmap_1 in Hpks.
Qed.


Lemma select_found leaderboards c selector :
  selector = SelAll
  \/ (exists lb, lb ∈ ResultExport.in_scope leaderboards c selector) ->
  ResultExport.select leaderboards c selector
  = inr (ResultExport.in_scope leaderboards c selector).
Proof.
  unfold ResultExport.select.
  intros [-> | [lb Hlb]]; [done |]. revert Hlb.
  destruct selector; [done | ..];
    (destruct (ResultExport.in_scope leaderboards c _);
     [by intros ?%elem_of_nil | done]).
Qed.

Lemma select_not_found leaderboards c selector :
  selector <> SelAll ->
  ResultExport.in_scope leaderboards c selector = [] ->
  ResultExport.select leaderboards c selector = inl NotFoundError.
Proof.
  unfold ResultExport.select. intros Hsel Hnone.
  destruct selector; [done | by rewrite Hnone ..].
Qed.

(** ** The mapping filled by the JSON export *)

Section json_mapping.
Context {V : Type} (key : Leaderboard -> string) (val : Leaderboard -> V).


End json_mapping.

(** ** JSON export by id and by title *)






(** ** ZIP export *)

(** C8: in a table of leaderboards with distinct primary keys, the ZIP export
    of a competition, for all its leaderboards or for a selector that matches
    at least one, is served as [application/x-zip-compressed] with
    [Content-Disposition: attachment; filename={competition.title}.zip]; its
    entries are named ["{title}({id}).csv"], one for each leaderboard of the
    competition that the selector matches, in their order, no name twice and
    no other entry. *)
Theorem export_zip_entries `{Aggregator} (leaderboards : list Leaderboard)
    (c : Competition) (selector : Selector) :
  NoDup (lb_pk <$> leaderboards) ->
  selector = SelAll
  \/ (exists lb, lb ∈ leaderboards /\ lb_competition lb = comp_pk c
                 /\ ResultExport.matches selector lb = true) ->
  exists response,
    ResultExport.export_zip leaderboards c selector = inr response
    /\ content_type response = "application/x-zip-compressed"
    /\ content_disposition response
       = "attachment; filename=" +:+ comp_title c +:+ ".zip"
    /\ (zip_entries response).*1
       = (fun lb => (lb_title lb +:+ "(" +:+ pretty (lb_pk lb) +:+ ")") +:+ ".csv")
           <$> filter (fun lb => lb_competition lb = comp_pk c
                         /\ ResultExport.matches selector lb = true)
                      leaderboards
    /\ NoDup (zip_entries response).*1
    /\ (forall name,
          name ∈ (zip_entries response).*1
          <-> exists lb, lb ∈ leaderboards
                /\ lb_competition lb = comp_pk c
                /\ ResultExport.matches selector lb = true
                /\ name = (lb_title lb +:+ "(" +:+ pretty (lb_pk lb) +:+ ")")
                          +:+ ".csv").
Proof.
  intros Hpks Hfound. unfold ResultExport.export_zip.
  rewrite select_found.
  2:{ destruct Hfound as [-> | (lb & ? & ? & ?)]; [by left | right].
      exists lb. by apply elem_of_in_scope. }
  eexists. split; [reflexivity |]. cbn [content_type content_disposition zip_entries].
  split; [done |]. split; [done |].
  assert (forall l : list Leaderboard,
            (map (fun lb => (ResultExport.leaderboard_key lb +:+ ".csv",
                             csv_rows lb (compute lb))) l).*1
            = (fun key => key +:+ ".csv")
                <$> (ResultExport.leaderboard_key <$> l)) as Hnames.
  { intros l. induction l as [| a l IH]; [done |]. cbn. by rewrite <- IH. }
  split; [| split].
  - rewrite Hnames, <- list_fmap_compose. reflexivity.
  - rewrite Hnames. apply NoDup_fmap_2_strong.
    + intros ? ? _ _. apply csv_name_inj.
    + by apply NoDup_keys_in_scope.
  - intros name. rewrite Hnames, <- list_fmap_compose, list_elem_of_fmap.
    split.
    + intros (lb & -> & Hlb). apply elem_of_in_scope in Hlb as (? & ? & ?).
      by exists lb.
    + intros (lb & ? & ? & ? & ->). exists lb. split; [done |].
      by apply elem_of_in_scope.
Qed.

(** ** The export on concrete leaderboards *)

Lemma all_leaderboards_pks : NoDup (lb_pk <$> all_leaderboards).
Proof. apply (bool_decide_unpack _). vm_compute. exact I. Defined.


Lemma export_zip_entries_witness :
  NoDup (lb_pk <$> all_leaderboards)
  /\ (SelAll = SelAll
      \/ (exists lb, lb ∈ all_leaderboards
                     /\ lb_competition lb = comp_pk competition1
                     /\ ResultExport.matches SelAll lb = true))
  /\ exists response,
    ResultExport.export_zip (H := no_scores) all_leaderboards competition1 SelAll
    = inr response
    /\ content_type response = "application/x-zip-compressed"
    /\ content_disposition response
       = "attachment; filename=" +:+ comp_title competition1 +:+ ".zip"
    /\ (zip_entries response).*1
       = (fun lb => (lb_title lb +:+ "(" +:+ pretty (lb_pk lb) +:+ ")") +:+ ".csv")
           <$> filter (fun lb => lb_competition lb = comp_pk competition1
                         /\ ResultExport.matches SelAll lb = true)
                      all_leaderboards
    /\ NoDup (zip_entries response).*1
    /\ (forall name,
          name ∈ (zip_entries response).*1
          <-> exists lb, lb ∈ all_leaderboards
                /\ lb_competition lb = comp_pk competition1
                /\ ResultExport.matches SelAll lb = true
                /\ name = (lb_title lb +:+ "(" +:+ pretty (lb_pk lb) +:+ ")")
                          +:+ ".csv").
Proof.
  split; [exact all_leaderboards_pks |].
  split; [left; reflexivity |].
  apply export_zip_entries; [exact all_leaderboards_pks | left; reflexivity].
Defined.

(** ** Runs on concrete data *)

Example export_json_all :
  ResultExport.export_json (H := no_scores) all_leaderboards competition1 SelAll
  = inr (<["Baseline(6)" := []]>
           (<["Results (final)(4)" := []]> (<["Results(3)" := []]> ∅))).
Proof. reflexivity. Qed.

Example export_zip_all :
  ResultExport.export_zip (H := no_scores) all_leaderboards competition1 SelAll
  = inr {| content_type := "application/x-zip-compressed";
           content_disposition := "attachment; filename=Iris challenge.zip";
           zip_entries :=
             [("Results(3).csv", [["participant"; "accuracy(21)"]]);
              ("Results (final)(4).csv", [["participant"; "accuracy(21)"]]);
              ("Baseline(6).csv", [["participant"]])] |}.
Proof. reflexivity. Qed.

Example export_zip_by_key :
  ResultExport.export_zip (H := no_scores) all_leaderboards competition1
    (SelTitle "Results(3)")
  = inr {| content_type := "application/x-zip-compressed";
           content_disposition := "attachment; filename=Iris challenge.zip";
           zip_entries :=
             [("Results(3).csv", [["participant"; "accuracy(21)"]])] |}.
Proof. reflexivity. Qed.

Example export_json_unknown_id :
  ResultExport.export_json (H := no_scores) all_leaderboards competition1
    (SelId 5)
  = inl NotFoundError.
Proof. reflexivity. Qed.

Example export_json_title_is_case_sensitive :
  ResultExport.export_json (H := no_scores) all_leaderboards competition1
    (SelTitle "results")
  = inl NotFoundError.
Proof. reflexivity. Qed.

Example to_representation_finished :
  to_representation finished_submission
  = inr [("id", JInt 7); ("data", JStr "k1"); ("phase", JInt 10);
         ("status", JChoice FINISHED); ("status_details", JNull);
         ("filename", JStr "run.zip"); ("description", JNull)].
Proof. reflexivity. Qed.

Example update_without_secret_or_status :
  (update finished_submission (no_status None)
     (world0 {[ 7 := finished_submission ]})).1
  = inl (PermissionError "Submission secret invalid").
Proof. reflexivity. Qed.

Example update_without_status :
  (update finished_submission (no_status (Some 424242))
     (world0 {[ 7 := finished_submission ]})).1
  = inl (KeyError "status").
Proof. reflexivity. Qed.

Example migrate_leaves_run :
  (PhaseMigration.migrate phase_1 phase_2 1 leaves_world).1
  = inr {| created := 5; triggered := 5 |}
  /\ length (run_submission_calls
               (trace (PhaseMigration.migrate phase_1 phase_2 1 leaves_world).2))
     = 5%nat
  /\ submissions_count
       (PhaseMigration.migrate phase_1 phase_2 1 leaves_world).2 10 = 5%nat
  /\ submissions_count
       (PhaseMigration.migrate phase_1 phase_2 1 leaves_world).2 11 = 5%nat.
Proof. repeat split; vm_compute; reflexivity. Qed.

Example migrate_group_run :
  (PhaseMigration.migrate phase_1 phase_2 1 group_world).1
  = inr {| created := 1; triggered := 1 |}
  /\ run_submission_calls
       (trace (PhaseMigration.migrate phase_1 phase_2 1 group_world).2)
     = [(6, false)]
  /\ submissions_count
       (PhaseMigration.migrate phase_1 phase_2 1 group_world).2 10 = 5%nat
  /\ submissions_count
       (PhaseMigration.migrate phase_1 phase_2 1 group_world).2 11 = 1%nat.
Proof. repeat split; vm_compute; reflexivity. Qed.

(** * Further properties of the serializers *)

(** ** [update]: what it leaves alone *)

Lemma update_rejected instance validated_data w :
  vd_secret validated_data <> Some (secret instance) ->
  update instance validated_data w
  = (inl (PermissionError "Submission secret invalid"), w).
Proof.
  intros Hsecret. unfold update.
  rewrite decide_True; [done |]. congruence.
Qed.

(** X1: whatever [update] is given and however it ends, the rows of the
    other submissions are not touched, and no [uuid4] is drawn. *)
Theorem update_touches_one_row (instance : Submission)
    (validated_data : ValidatedData) (w : World) (k : Z) :
  k <> pk instance ->
  submissions (update instance validated_data w).2 !! k = submissions w !! k
  /\ uuid_drawn (update instance validated_data w).2 = uuid_drawn w.
Proof.
  intros Hother.
  destruct (decide (vd_secret validated_data = Some (secret instance)))
    as [Hsecret | Hsecret].
  - destruct (vd_status validated_data) as [st |] eqn:Hstatus.
    + rewrite (update_accepted _ _ st) by done. cbn.
      by rewrite lookup_insert_ne.
    + by rewrite update_no_status.
  - by rewrite update_rejected.
Qed.

Lemma update_touches_one_row_witness :
  8 <> pk finished_submission
  /\ submissions
       (update finished_submission (status_only RUNNING (Some 424242))
          (world0 (<[8 := leaf 8]> {[ 7 := finished_submission ]}))).2 !! 8
     = submissions (world0 (<[8 := leaf 8]> {[ 7 := finished_submission ]})) !! 8
  /\ uuid_drawn
       (update finished_submission (status_only RUNNING (Some 424242))
          (world0 (<[8 := leaf 8]> {[ 7 := finished_submission ]}))).2
     = uuid_drawn (world0 (<[8 := leaf 8]> {[ 7 := finished_submission ]})).
Proof.
  split; [discriminate |].
  apply update_touches_one_row. discriminate.
Defined.

(** X2: an update that carries the right secret but no status, for instance
    status details alone, ends in [KeyError] on ["status"]: the table is as
    before, nothing was saved and nothing dispatched, only the two lines were
    printed. *)
Theorem update_requires_status (instance : Submission)
    (validated_data : ValidatedData) (w : World) :
  vd_secret validated_data = Some (secret instance) ->
  vd_status validated_data = None ->
  (update instance validated_data w).1 = inl (KeyError "status")
  /\ submissions (update instance validated_data w).2 = submissions w
  /\ exists events,
       trace (update instance validated_data w).2 = trace w ++ events
       /\ saved_rows events = []
       /\ run_submission_calls events = []
       /\ length events = 2%nat.
Proof.
  intros Hsecret Hstatus. rewrite update_no_status by done. cbn.
  split; [done |]. split; [done |]. by eexists.
Qed.

Lemma update_requires_status_witness :
  vd_secret {| vd_data := None; vd_phase := None; vd_status := None;
               vd_status_details := Some (Some "worker lost");
               vd_secret := Some 424242; vd_owner := None |}
  = Some (secret finished_submission)
  /\ vd_status {| vd_data := None; vd_phase := None; vd_status := None;
                  vd_status_details := Some (Some "worker lost");
                  vd_secret := Some 424242; vd_owner := None |} = None
  /\ (update finished_submission
        {| vd_data := None; vd_phase := None; vd_status := None;
           vd_status_details := Some (Some "worker lost");
           vd_secret := Some 424242; vd_owner := None |}
        (world0 {[ 7 := finished_submission ]})).1
     = inl (KeyError "status").
Proof.
  split; [reflexivity |]. split; [reflexivity |].
  apply (update_requires_status finished_submission
           {| vd_data := None; vd_phase := None; vd_status := None;
              vd_status_details := Some (Some "worker lost");
              vd_secret := Some 424242; vd_owner := None |});
    reflexivity.
Defined.

Lemma update_returns instance validated_data w row w' :
  update instance validated_data w = (inr row, w') ->
  vd_secret validated_data = Some (secret instance)
  /\ (exists st, vd_status validated_data = Some st)
  /\ row = setattrs instance validated_data.
Proof.
  intros Hrun.
  destruct (decide (vd_secret validated_data = Some (secret instance)))
    as [Hsecret | Hsecret].
  - destruct (vd_status validated_data) as [st |] eqn:Hstatus.
    + rewrite (update_accepted _ _ st) in Hrun by done.
      injection Hrun as <- _. eauto.
    + by rewrite update_no_status in Hrun.
  - by rewrite update_rejected in Hrun.
Qed.

(** X3: an [update] that returns never changes who the submission is: the
    primary key, the secret token, the parent, [has_children] and the
    description of the returned instance are those of the instance it was
    given. *)
Theorem update_keeps_identity (instance : Submission)
    (validated_data : ValidatedData) (w w' : World) (row : Submission) :
  update instance validated_data w = (inr row, w') ->
  pk row = pk instance
  /\ secret row = secret instance
  /\ parent row = parent instance
  /\ has_children row = has_children instance
  /\ description row = description instance.
Proof.
  intros (Hsecret & _ & ->)%update_returns.
  destruct validated_data as [[?|] [?|] [?|] [?|] [?|] [?|]];
    cbn in *; repeat split; congruence.
Qed.

Lemma update_keeps_identity_witness :
  exists row w',
    update finished_submission (status_only RUNNING (Some 424242))
      (world0 {[ 7 := finished_submission ]}) = (inr row, w')
    /\ pk row = pk finished_submission
    /\ secret row = secret finished_submission
    /\ parent row = parent finished_submission
    /\ has_children row = has_children finished_submission
    /\ description row = description finished_submission.
Proof.
  eexists _, _.
  split; [apply (update_accepted _ _ RUNNING); reflexivity |].
  eapply (update_keeps_identity finished_submission
            (status_only RUNNING (Some 424242))
            (world0 {[ 7 := finished_submission ]})).
  apply (update_accepted _ _ RUNNING); reflexivity.
Defined.

Lemma secret_setattrs instance validated_data :
  vd_secret validated_data = Some (secret instance) ->
  secret (setattrs instance validated_data) = secret instance.
Proof.
  destruct validated_data as [[?|] [?|] [?|] [?|] [?|] [?|]];
    cbn; congruence.
Qed.

Lemma setattrs_twice instance validated_data :
  setattrs (setattrs instance validated_data) validated_data
  = setattrs instance validated_data.
Proof. by destruct validated_data as [[?|] [?|] [?|] [?|] [?|] [?|]]. Qed.

(** X4: the same accepted update sent a second time is accepted again.  The
    table ends as the first call left it, but the effects are repeated: when
    the status is [SCORING], [run_submission] has been called twice. *)
Theorem update_repeated (instance : Submission)
    (validated_data : ValidatedData) (st : Status) (w : World) :
  vd_secret validated_data = Some (secret instance) ->
  vd_status validated_data = Some st ->
  exists row w1 w2 events,
    update instance validated_data w = (inr row, w1)
    /\ update row validated_data w1 = (inr row, w2)
    /\ submissions w2 = submissions w1
    /\ trace w2 = trace w ++ events
    /\ run_submission_calls events
       = (if decide (st = SCORING)
          then [(pk instance, true); (pk instance, true)] else [])
    /\ saved_rows events = [row; row].
Proof.
  intros Hsecret Hstatus.
  pose proof (update_accepted instance validated_data st w Hsecret Hstatus)
    as Hfirst.
  pose proof (pk_setattrs instance validated_data) as Hpk.
  assert (vd_secret validated_data
          = Some (secret (setattrs instance validated_data))) as Hsecret'.
  { by rewrite secret_setattrs. }
  match type of Hfirst with
  | _ = (_, ?w1) =>
      pose proof (update_accepted _ validated_data st w1 Hsecret' Hstatus)
        as Hsecond
  end.
  rewrite setattrs_twice, Hpk in Hsecond. cbn in Hsecond.
  rewrite insert_insert_eq, <- (assoc_L (++)) in Hsecond.
  eexists _, _, _, _. split; [exact Hfirst |]. split; [exact Hsecond |].
  cbn. split; [reflexivity |]. split; [reflexivity |].
  unfold update_events. rewrite Hpk, setattrs_twice.
  by destruct (decide (st = SCORING)).
Qed.

Lemma update_repeated_witness :
  vd_secret (status_only SCORING (Some 424242))
  = Some (secret finished_submission)
  /\ vd_status (status_only SCORING (Some 424242)) = Some SCORING
  /\ exists row w1 w2 events,
    update finished_submission (status_only SCORING (Some 424242))
      (world0 {[ 7 := finished_submission ]}) = (inr row, w1)
    /\ update row (status_only SCORING (Some 424242)) w1 = (inr row, w2)
    /\ submissions w2 = submissions w1
    /\ trace w2 = trace (world0 {[ 7 := finished_submission ]}) ++ events
    /\ run_submission_calls events
       = (if decide (SCORING = SCORING)
          then [(pk finished_submission, true); (pk finished_submission, true)]
          else [])
    /\ saved_rows events = [row; row].
Proof.
  split; [reflexivity |]. split; [reflexivity |].
  apply update_repeated; reflexivity.
Defined.

(** ** [create]: failure, freshness and composition *)

Lemma create_accepted context validated_data requester phase_id w :
  ctx_owner context = Some requester ->
  vd_phase validated_data = Some phase_id ->
  create context validated_data w
  = (inr (created_submission validated_data requester phase_id w),
     after_create validated_data
       (created_submission validated_data requester phase_id w) w).
Proof.
  intros Hctx Hphase.
  unfold create, getitem_owner, ModelSerializer_create, setitem_owner,
    created_submission, after_create.
  rewrite Hctx.
  cbn [vd_secret vd_status vd_status_details vd_data vd_owner vd_phase].
  rewrite Hphase.
  destruct (vd_secret validated_data), (vd_status validated_data),
    (vd_status_details validated_data), (vd_data validated_data);
    cbn; rewrite <- (assoc_L (++)); reflexivity.
Qed.

Lemma create_failed_table context validated_data w :
  ctx_owner context = None \/ vd_phase validated_data = None ->
  submissions (create context validated_data w).2 = submissions w
  /\ trace (create context validated_data w).2 = trace w
  /\ exists e, (create context validated_data w).1 = inl e.
Proof.
  unfold create, getitem_owner, ModelSerializer_create, setitem_owner.
  intros [Hctx | Hphase].
  - rewrite Hctx. cbn. eauto.
  - destruct (ctx_owner context); [| cbn; eauto].
    cbn [vd_secret vd_status vd_status_details vd_data vd_owner vd_phase].
    rewrite Hphase.
    destruct (vd_secret validated_data), (vd_status validated_data),
      (vd_status_details validated_data), (vd_data validated_data);
      cbn; eauto.
Qed.

(** X5: without an ["owner"] in the serializer context, [create] ends in
    [KeyError] on ["owner"] before anything is done: the world is as it was,
    whatever the data are. *)
Theorem create_requires_owner (context : Context)
    (validated_data : ValidatedData) (w : World) :
  ctx_owner context = None ->
  create context validated_data w = (inl (KeyError "owner"), w).
Proof.
  intros Hctx. unfold create, getitem_owner. by rewrite Hctx.
Qed.

Lemma create_requires_owner_witness :
  ctx_owner {| ctx_owner := None |} = None
  /\ create {| ctx_owner := None |} (status_only SUBMITTING None)
       (world0 {[ 7 := finished_submission ]})
     = (inl (KeyError "owner"), world0 {[ 7 := finished_submission ]}).
Proof.
  split; [reflexivity |]. apply create_requires_owner. reflexivity.
Defined.

(** X6: [create] never overwrites: every row of the table is still there
    afterwards, however the call ends; and when it returns a submission, the
    table has exactly one row more. *)
Theorem create_keeps_rows (context : Context)
    (validated_data : ValidatedData) (w : World) :
  (forall k row, submissions w !! k = Some row ->
                 submissions (create context validated_data w).2 !! k
                 = Some row)
  /\ (forall sub w', create context validated_data w = (inr sub, w') ->
        size (submissions w') = S (size (submissions w))).
Proof.
  destruct (ctx_owner context) as [requester |] eqn:Hctx;
    [destruct (vd_phase validated_data) as [phase_id |] eqn:Hphase |].
  - rewrite (create_accepted _ _ requester phase_id) by done.
    pose proof (fresh_pk_unused (submissions w)) as Hfree. split.
    + intros k row Hrow. cbn. rewrite lookup_insert_ne; [done |].
      intros <-. congruence.
    + intros sub w' [= <- <-]. cbn. by rewrite map_size_insert_None.
  - destruct (create_failed_table context validated_data w) as (Ht & _ & e & He);
      [by right |].
    split; [by rewrite Ht |]. intros sub w' Hrun.
    rewrite Hrun in He. discriminate.
  - destruct (create_failed_table context validated_data w) as (Ht & _ & e & He);
      [by left |].
    split; [by rewrite Ht |]. intros sub w' Hrun.
    rewrite Hrun in He. discriminate.
Qed.

Lemma create_keeps_rows_witness :
  submissions (world0 {[ 7 := finished_submission ]}) !! 7
  = Some finished_submission
  /\ submissions
       (create {| ctx_owner := Some 3 |}
          {| vd_data := Some (Some upload); vd_phase := Some 10;
             vd_status := None; vd_status_details := None;
             vd_secret := None; vd_owner := None |}
          (world0 {[ 7 := finished_submission ]})).2 !! 7
     = Some finished_submission.
Proof.
  split; [reflexivity |].
  apply (proj1 (create_keeps_rows {| ctx_owner := Some 3 |}
                  {| vd_data := Some (Some upload); vd_phase := Some 10;
                     vd_status := None; vd_status_details := None;
                     vd_secret := None; vd_owner := None |}
                  (world0 {[ 7 := finished_submission ]}))).
  reflexivity.
Defined.

(** X7: two creations in a row give two submissions under different primary
    keys, the second larger than the first; both are stored, and they were
    started in the order they were created. *)
Theorem create_twice (context : Context) (first second : ValidatedData)
    (requester phase_a phase_b : Z) (w : World) :
  ctx_owner context = Some requester ->
  vd_phase first = Some phase_a ->
  vd_phase second = Some phase_b ->
  exists sub1 w1 sub2 w2,
    create context first w = (inr sub1, w1)
    /\ create context second w1 = (inr sub2, w2)
    /\ pk sub1 < pk sub2
    /\ submissions w2 !! pk sub1 = Some sub1
    /\ submissions w2 !! pk sub2 = Some sub2
    /\ run_submission_calls (trace w2)
       = run_submission_calls (trace w) ++ [(pk sub1, false); (pk sub2, false)].
Proof.
  intros Hctx Ha Hb.
  rewrite (create_accepted _ _ requester phase_a) by done.
  eexists _, _, _, _. split; [reflexivity |].
  split; [by apply (create_accepted _ _ requester phase_b) |].
  assert (pk (created_submission first requester phase_a w)
          < pk (created_submission second requester phase_b
                  (after_create first
                     (created_submission first requester phase_a w) w)))
    as Hlt.
  { cbn. apply fresh_pk_above. rewrite lookup_insert_eq. by eexists. }
  split; [exact Hlt |]. cbn in *. split.
  - rewrite lookup_insert_ne by lia. by rewrite lookup_insert_eq.
  - split; [by rewrite lookup_insert_eq |].
    unfold run_submission_calls. by rewrite !omap_app, <- (assoc_L (++)).
Qed.

Lemma create_twice_witness :
  ctx_owner {| ctx_owner := Some 3 |} = Some 3
  /\ vd_phase {| vd_data := Some (Some upload); vd_phase := Some 10;
                 vd_status := None; vd_status_details := None;
                 vd_secret := None; vd_owner := None |} = Some 10
  /\ vd_phase {| vd_data := None; vd_phase := Some 11;
                 vd_status := None; vd_status_details := None;
                 vd_secret := Some 77; vd_owner := None |} = Some 11
  /\ exists sub1 w1 sub2 w2,
    create {| ctx_owner := Some 3 |}
      {| vd_data := Some (Some upload); vd_phase := Some 10;
         vd_status := None; vd_status_details := None;
         vd_secret := None; vd_owner := None |}
      (world0 {[ 7 := finished_submission ]}) = (inr sub1, w1)
    /\ create {| ctx_owner := Some 3 |}
         {| vd_data := None; vd_phase := Some 11;
            vd_status := None; vd_status_details := None;
            vd_secret := Some 77; vd_owner := None |} w1 = (inr sub2, w2)
    /\ pk sub1 < pk sub2
    /\ submissions w2 !! pk sub1 = Some sub1
    /\ submissions w2 !! pk sub2 = Some sub2
    /\ run_submission_calls (trace w2)
       = run_submission_calls (trace (world0 {[ 7 := finished_submission ]}))
         ++ [(pk sub1, false); (pk sub2, false)].
Proof.
  split; [reflexivity |]. split; [reflexivity |]. split; [reflexivity |].
  apply (create_twice _ _ _ 3 10 11); reflexivity.
Defined.

(** X8: the secret stored at creation, the one the request carried or else
    the next [uuid4] draw, is the one that authorizes updates: an update of
    the created submission with that secret and any status is accepted and
    stores the status, the owner staying the requester of the creation. *)
Theorem create_then_update (context : Context)
    (validated_data : ValidatedData) (requester phase_id : Z) (w : World) :
  ctx_owner context = Some requester ->
  vd_phase validated_data = Some phase_id ->
  exists sub w',
    create context validated_data w = (inr sub, w')
    /\ secret sub = default (uuid_source w (uuid_drawn w))
                            (vd_secret validated_data)
    /\ forall st, exists row w'',
         update sub (status_only st (Some (secret sub))) w' = (inr row, w'')
         /\ status row = st
         /\ owner row = requester
         /\ submissions w'' !! pk sub = Some row.
Proof.
  intros Hctx Hphase.
  rewrite (create_accepted _ _ requester phase_id) by done.
  eexists _, _. split; [reflexivity |]. split; [reflexivity |].
  intros st. rewrite (update_accepted _ _ st) by reflexivity.
  eexists _, _. split; [reflexivity |]. cbn.
  by rewrite lookup_insert_eq.
Qed.

Lemma create_then_update_witness :
  ctx_owner {| ctx_owner := Some 3 |} = Some 3
  /\ vd_phase {| vd_data := None; vd_phase := Some 11;
                 vd_status := None; vd_status_details := None;
                 vd_secret := Some 77; vd_owner := None |} = Some 11
  /\ exists sub w',
    create {| ctx_owner := Some 3 |}
      {| vd_data := None; vd_phase := Some 11;
         vd_status := None; vd_status_details := None;
         vd_secret := Some 77; vd_owner := None |}
      (world0 {[ 7 := finished_submission ]}) = (inr sub, w')
    /\ secret sub = 77
    /\ forall st, exists row w'',
         update sub (status_only st (Some (secret sub))) w' = (inr row, w'')
         /\ status row = st
         /\ owner row = 3
         /\ submissions w'' !! pk sub = Some row.
Proof.
  split; [reflexivity |]. split; [reflexivity |].
  apply (create_then_update {| ctx_owner := Some 3 |}
           {| vd_data := None; vd_phase := Some 11;
              vd_status := None; vd_status_details := None;
              vd_secret := Some 77; vd_owner := None |} 3 11);
    reflexivity.
Defined.

(** ** [get_filename] and [os.path.basename] *)

Lemma after_last_slash_cases p : forall candidate,
  (~ occurs "/" p /\ after_last_slash p candidate = candidate)
  \/ (exists dir name,
        p = dir +:+ String "/" name
        /\ ~ occurs "/" name
        /\ after_last_slash p candidate = name).
Proof.
  induction p as [| a rest IH]; intros candidate; simpl.
  - left. tauto.
  - destruct (Ascii.eqb_spec a "/") as [-> | Hchar].
    + right. destruct (IH rest) as [[Hnone ->] | (dir & name & -> & Hname & ->)].
      * by exists "", rest.
      * by exists (String "/" dir), name.
    + destruct (IH candidate)
        as [[Hnone ->] | (dir & name & -> & Hname & ->)].
      * left. split; [| done]. intros [? | ?]; [congruence | done].
      * right. by exists (String a dir), name.
Qed.

(** X9: the base name of a path is the path itself when the path has no
    slash, and otherwise what follows its last slash: the path is a
    directory part ending in a slash followed by the base name.  In both
    cases the base name has no slash in it. *)
Theorem basename_decomposition (p : string) :
  ~ occurs "/" (basename p)
  /\ ((~ occurs "/" p /\ basename p = p)
      \/ exists dir, p = (dir +:+ "/") +:+ basename p).
Proof.
  unfold basename.
  destruct (after_last_slash_cases p p)
    as [[Hnone ->] | (dir & name & Hp & Hname & ->)].
  - split; [done |]. by left.
  - split; [done |]. right. exists dir. subst p.
    clear. induction dir as [| a dir IH]; [reflexivity |].
    change (String a (dir +:+ String "/" name)
            = String a ((dir +:+ "/") +:+ name)).
    by f_equal.
Qed.

(** X10: a file name without a slash is read back from any path built by
    putting a directory and a slash before it; on its own it is its own base
    name. *)
Theorem basename_of_joined_path (dir name : string) :
  ~ occurs "/" name ->
  basename (dir +:+ String "/" name) = name /\ basename name = name.
Proof.
  intros Hname. unfold basename. split.
  - destruct (after_last_slash_cases (dir +:+ String "/" name)
                (dir +:+ String "/" name))
      as [[Hnone _] | (dir' & name' & Heq & Hname' & ->)].
    + destruct Hnone. apply occurs_app. right. by left.
    + by apply split_at_last in Heq as [_ ->].
  - by destruct (after_last_slash_cases name name)
      as [[_ ->] | (dir' & name' & -> & _ & _)];
      [| destruct Hname; apply occurs_app; right; left].
Qed.

Lemma basename_of_joined_path_witness :
  ~ occurs "/" "run.zip"
  /\ basename ("submission/2020/03" +:+ String "/" "run.zip") = "run.zip"
  /\ basename "run.zip" = "run.zip".
Proof.
  assert (~ occurs "/" "run.zip") as Hname.
  { simpl. intros H. repeat (destruct H as [H | H]; [discriminate |]). done. }
  split; [exact Hname |].
  exact (basename_of_joined_path "submission/2020/03" "run.zip" Hname).
Defined.

(** ** Rendering needs the data *)

(** X11: the creation serializer can render a submission exactly when the
    submission has data: without data [get_filename] ends in
    [AttributeError], with data the output carries the slug of the data
    under ["data"] and the base name of its file under ["filename"]. *)
Theorem to_representation_needs_data (instance : Submission) :
  (data instance = None ->
   to_representation instance
   = inl (AttributeError "'NoneType' object has no attribute 'data_file'"))
  /\ (forall d, data instance = Some d ->
        exists out,
          to_representation instance = inr out
          /\ ("data", JStr (data_key d)) ∈ out
          /\ ("filename", JStr (basename (data_file_name d))) ∈ out
          /\ ("id", JInt (pk instance)) ∈ out
          /\ ("status", JChoice (status instance)) ∈ out).
Proof.
  unfold to_representation. rewrite readable_fields_eq.
  destruct instance as [? ? ? ? ? ? ? ? [d |] ?]; cbn [data]; split;
    try discriminate; try reflexivity.
  intros d' [= <-]. eexists. split; [reflexivity |].
  rewrite !elem_of_cons. tauto.
Qed.

Lemma to_representation_needs_data_witness :
  (data (set_data None finished_submission) = None
   /\ to_representation (set_data None finished_submission)
      = inl (AttributeError "'NoneType' object has no attribute 'data_file'"))
  /\ (data finished_submission = Some upload
      /\ exists out,
          to_representation finished_submission = inr out
          /\ ("data", JStr (data_key upload)) ∈ out
          /\ ("filename", JStr (basename (data_file_name upload))) ∈ out
          /\ ("id", JInt (pk finished_submission)) ∈ out
          /\ ("status", JChoice (status finished_submission)) ∈ out).
Proof.
  split; (split; [reflexivity |]).
  - exact (proj1 (to_representation_needs_data
                    (set_data None finished_submission)) eq_refl).
  - exact (proj2 (to_representation_needs_data finished_submission)
             upload eq_refl).
Defined.

(** X12: [data] may be null at creation ([allow_null=True]).  Whenever
    [create] returns a submission for data whose [data] is null, the
    submission it returns is stored without data and the serializer that
    created it cannot render it: [to_representation] ends in
    [AttributeError]. *)
Theorem create_with_null_data_not_renderable (context : Context)
    (validated_data : ValidatedData) (w w' : World) (sub : Submission) :
  vd_data validated_data = Some None ->
  create context validated_data w = (inr sub, w') ->
  data sub = None
  /\ submissions w' !! pk sub = Some sub
  /\ to_representation sub
     = inl (AttributeError "'NoneType' object has no attribute 'data_file'").
Proof.
  intros Hdata Hrun.
  destruct (ctx_owner context) as [requester |] eqn:Hctx;
    [destruct (vd_phase validated_data) as [phase_id |] eqn:Hphase |].
  - rewrite (create_accepted _ _ requester phase_id) in Hrun by done.
    injection Hrun as <- <-.
    assert (data (created_submission validated_data requester phase_id w)
            = None) as Hnone.
    { unfold created_submission. cbn. by rewrite Hdata. }
    split; [exact Hnone |].
    split; [cbn; by rewrite lookup_insert_eq |].
    unfold to_representation. rewrite readable_fields_eq.
    unfold created_submission in *. cbn in Hnone. cbn. by rewrite Hnone.
  - destruct (create_failed_table context validated_data w)
      as (_ & _ & e & He); [by right |].
    rewrite Hrun in He. discriminate.
  - destruct (create_failed_table context validated_data w)
      as (_ & _ & e & He); [by left |].
    rewrite Hrun in He. discriminate.
Qed.

Lemma create_with_null_data_not_renderable_witness :
  vd_data {| vd_data := Some None; vd_phase := Some 11;
             vd_status := None; vd_status_details := None;
             vd_secret := None; vd_owner := None |} = Some None
  /\ exists sub w',
    create {| ctx_owner := Some 3 |}
      {| vd_data := Some None; vd_phase := Some 11;
         vd_status := None; vd_status_details := None;
         vd_secret := None; vd_owner := None |}
      (world0 {[ 7 := finished_submission ]}) = (inr sub, w')
    /\ data sub = None
    /\ submissions w' !! pk sub = Some sub
    /\ to_representation sub
       = inl (AttributeError "'NoneType' object has no attribute 'data_file'").
Proof.
  split; [reflexivity |].
  eexists _, _.
  split; [apply (create_accepted _ _ 3 11); reflexivity |].
  eapply (create_with_null_data_not_renderable {| ctx_owner := Some 3 |}
            {| vd_data := Some None; vd_phase := Some 11;
               vd_status := None; vd_status_details := None;
               vd_secret := None; vd_owner := None |}
            (world0 {[ 7 := finished_submission ]}));
    [reflexivity |].
  apply (create_accepted _ _ 3 11); reflexivity.
Defined.

(** * Properties of the checks in the tests *)

(** ** Reading the title back from a key *)

Lemma rsplit_at_last_none sep s :
  ~ occurs sep s -> rsplit_at_last sep s = None.
Proof.
  induction s as [| a s IH]; [done |]. simpl. intros Hnone.
  rewrite IH by tauto.
  destruct (Ascii.eqb_spec a sep); [tauto | done].
Qed.

Lemma rsplit_at_last_app sep left_ right_ :
  ~ occurs sep right_ ->
  rsplit_at_last sep (left_ +:+ String sep right_) = Some (left_, right_).
Proof.
  intros Hnone. induction left_ as [| a left_ IH].
  - change (rsplit_at_last sep (String sep right_) = Some ("", right_)).
    simpl. rewrite rsplit_at_last_none by done.
    by rewrite (proj2 (Ascii.eqb_eq sep sep) eq_refl).
  - change (rsplit_at_last sep (String a (left_ +:+ String sep right_))
            = Some (String a left_, right_)).
    simpl. by rewrite IH.
Qed.

Lemma expected_key_parts title id :
  CompetitionResultDatatypesTests.expected_key title id
  = title +:+ String "(" (pretty id +:+ ")")
  /\ ~ occurs "(" (pretty id +:+ ")").
Proof.
  split; [reflexivity |]. rewrite occurs_app. simpl.
  intros [? | [? | ?]];
    [by eapply pretty_Z_no_paren | discriminate | done].
Qed.

Lemma unpack_expected_key title id :
  unpack2 (rsplit "(" (CompetitionResultDatatypesTests.expected_key title id))
  = inr (title, pretty id +:+ ")").
Proof.
  destruct (expected_key_parts title id) as [-> Hnone].
  unfold rsplit. by rewrite rsplit_at_last_app.
Qed.

(** X13: splitting the key ["{title}({id})"] at its last opening parenthesis,
    as [test_get_competition_leaderboard_as_json] does, gives back the title,
    also for a title that has parentheses of its own; a key without any
    parenthesis gives a single part, and unpacking it into two ends in
    [ValueError], one value where two are expected. *)
Theorem title_read_back_from_key (title : string) (id : Z) :
  unpack2 (rsplit "(" (CompetitionResultDatatypesTests.expected_key title id))
  = inr (title, pretty id +:+ ")")
  /\ (forall key, ~ occurs "(" key ->
        rsplit "(" key = [key]
        /\ unpack2 (rsplit "(" key)
           = inl (ValueError "not enough values to unpack (expected 2, got 1)")).
Proof.
  split; [apply unpack_expected_key |].
  intros key Hnone. unfold rsplit. by rewrite rsplit_at_last_none.
Qed.

Lemma title_read_back_from_key_witness :
  unpack2 (rsplit "("
             (CompetitionResultDatatypesTests.expected_key "Results (final)" 4))
  = inr ("Results (final)", "4)")
  /\ (~ occurs "(" "Results"
      /\ rsplit "(" "Results" = ["Results"]
      /\ unpack2 (rsplit "(" "Results")
         = inl (ValueError "not enough values to unpack (expected 2, got 1)")).
Proof.
  assert (~ occurs "(" "Results") as Hnone.
  { simpl. intros H. repeat (destruct H as [H | H]; [discriminate |]). done. }
  split.
  - exact (proj1 (title_read_back_from_key "Results (final)" 4)).
  - split; [exact Hnone |].
    exact (proj2 (title_read_back_from_key "" 0) "Results" Hnone).
Defined.

Lemma collect_content_of boards : forall titles users,
  CompetitionResultDatatypesTests.collect (content_of boards) titles users
  = inr (list_to_set ((fun board => board.1.2) <$> boards) ∪ titles,
         list_to_set (concat (snd <$> boards)) ∪ users).
Proof.
  induction boards as [| [[id title] names] boards IH]; intros titles users.
  - cbn. by rewrite !(left_id_L ∅ (∪)).
  - cbn [content_of fmap list_fmap CompetitionResultDatatypesTests.collect].
    cbn [fst snd].
    rewrite unpack_expected_key.
    cbn [test_bind]. fold (content_of boards). rewrite IH.
    cbn [fst snd concat list_to_set]. rewrite list_to_set_app_L.
    rewrite !(assoc_L (∪)).
    by rewrite (comm_L (∪) _ {[title]}), (comm_L (∪) _ (list_to_set names)).
Qed.

(** X14: [test_get_competition_leaderboard_as_json] passes on the content
    that has one entry per leaderboard under the key ["{title}({id})"], for
    any titles, ids and users: the titles it reads back from the keys are
    the titles of the leaderboards, and the users those of the entries. *)
Theorem json_test_passes_on_expected_keys
    (boards : list (Z * string * list string)) :
  CompetitionResultDatatypesTests.collect (content_of boards) ∅ ∅
  = inr (list_to_set ((fun board => board.1.2) <$> boards),
         list_to_set (concat (snd <$> boards)))
  /\ CompetitionResultDatatypesTests.test_get_competition_leaderboard_as_json
       (fst <$> boards) (list_to_set (concat (snd <$> boards)))
       (content_of boards)
     = inr tt.
Proof.
  assert (CompetitionResultDatatypesTests.collect (content_of boards) ∅ ∅
          = inr (list_to_set ((fun board => board.1.2) <$> boards),
                 list_to_set (concat (snd <$> boards)))) as Hcollect.
  { by rewrite collect_content_of, !(right_id_L ∅ (∪)). }
  split; [exact Hcollect |].
  unfold CompetitionResultDatatypesTests.test_get_competition_leaderboard_as_json.
  rewrite Hcollect. cbn [test_bind fst snd].
  rewrite <- list_fmap_compose.
  rewrite !bool_decide_eq_true_2 by done. reflexivity.
Qed.

Lemma by_title_test_spec choice keys :
  CompetitionResultDatatypesTests.test_get_competition_leaderboard_by_title_as_json
    choice keys = inr tt
  <-> Forall (is_substring choice) keys.
Proof.
  induction keys as [| key keys IH]; cbn.
  - split; [constructor | done].
  - rewrite Forall_cons, <- IH, <- contains_spec.
    destruct (ResultExport.contains choice key); cbn; [tauto |].
    split; [done | by intros [? _]].
Qed.

(** X15: [test_get_competition_leaderboard_by_title_as_json] passes exactly
    when every key of the content contains the chosen string.  It does so
    whenever the titles contain it, the key starting with the title; and it
    looks at the whole key, so a string found only in the ["({id})"] part
    passes as well. *)
Theorem by_title_test_checks_keys (choice : string) :
  (forall keys,
     CompetitionResultDatatypesTests.test_get_competition_leaderboard_by_title_as_json
       choice keys = inr tt
     <-> Forall (is_substring choice) keys)
  /\ (forall boards : list (string * Z),
        Forall (fun board => is_substring choice board.1) boards ->
        CompetitionResultDatatypesTests.test_get_competition_leaderboard_by_title_as_json
          choice
          ((fun board =>
              CompetitionResultDatatypesTests.expected_key board.1 board.2)
             <$> boards)
        = inr tt)
  /\ (forall title id,
        is_substring choice ("(" +:+ pretty id +:+ ")") ->
        CompetitionResultDatatypesTests.test_get_competition_leaderboard_by_title_as_json
          choice [CompetitionResultDatatypesTests.expected_key title id]
        = inr tt).
Proof.
  split; [apply by_title_test_spec |]. split.
  - intros boards Hboards. apply by_title_test_spec.
    apply Forall_fmap. eapply Forall_impl; [exact Hboards |].
    intros [title id] (before & after & Htitle). cbn in *.
    exists before, (after +:+ "(" +:+ pretty id +:+ ")").
    unfold CompetitionResultDatatypesTests.expected_key. rewrite Htitle.
    clear. induction before as [| a before IH].
    + change ((choice +:+ after) +:+ "(" +:+ pretty id +:+ ")"
              = choice +:+ after +:+ "(" +:+ pretty id +:+ ")").
      induction choice as [| c choice IHc]; [done |].
      change (String c ((choice +:+ after) +:+ "(" +:+ pretty id +:+ ")")
              = String c (choice +:+ after +:+ "(" +:+ pretty id +:+ ")")).
      by f_equal.
    + change (String a ((before +:+ choice +:+ after)
                        +:+ "(" +:+ pretty id +:+ ")")
              = String a (before +:+ choice +:+ after
                          +:+ "(" +:+ pretty id +:+ ")")).
      by f_equal.
  - intros title id (before & after & Hid). apply by_title_test_spec.
    constructor; [| constructor].
    exists (title +:+ before), after.
    unfold CompetitionResultDatatypesTests.expected_key.
    change (title +:+ "(" +:+ pretty id +:+ ")")
      with (title +:+ ("(" +:+ pretty id +:+ ")")).
    rewrite Hid. clear. induction title as [| a title IH]; [done |].
    change (String a (title +:+ before +:+ choice +:+ after)
            = String a ((title +:+ before) +:+ choice +:+ after)).
    by f_equal.
Qed.

Lemma by_title_test_checks_keys_witness :
  (Forall (fun board : string * Z => is_substring "sult" board.1)
          [("Results", 3); ("Results (final)", 4)]
   /\ CompetitionResultDatatypesTests.test_get_competition_leaderboard_by_title_as_json
        "sult"
        ((fun board =>
            CompetitionResultDatatypesTests.expected_key board.1 board.2)
           <$> [("Results", 3); ("Results (final)", 4)])
      = inr tt)
  /\ (is_substring "(6" ("(" +:+ pretty 6 +:+ ")")
      /\ CompetitionResultDatatypesTests.test_get_competition_leaderboard_by_title_as_json
           "(6" [CompetitionResultDatatypesTests.expected_key "Baseline" 6]
         = inr tt).
Proof.
  assert (Forall (fun board : string * Z => is_substring "sult" board.1)
                 [("Results", 3); ("Results (final)", 4)]) as Htitles.
  { repeat constructor.
    - by exists "Re", "s".
    - by exists "Re", "s (final)". }
  assert (is_substring "(6" ("(" +:+ pretty 6 +:+ ")")) as Hid.
  { by exists "", ")". }
  split; (split; [assumption |]).
  - exact (proj1 (proj2 (by_title_test_checks_keys "sult")) _ Htitles).
  - exact (proj2 (proj2 (by_title_test_checks_keys "(6")) "Baseline" 6 Hid).
Defined.

Lemma assert_columns_passes columns :
  CompetitionResultDatatypesTests.assert_columns columns = inr tt.
Proof.
  induction columns as [| [title id] columns IH]; [done |].
  cbn [CompetitionResultDatatypesTests.assert_columns].
  assert (truthy (CompetitionResultDatatypesTests.expected_key title id) = true)
    as ->; [| exact IH].
  unfold CompetitionResultDatatypesTests.expected_key. by destruct title.
Qed.

(** X16: the two CSV tests, once the response is read, pass exactly when the
    CSV has a first row with at least one cell.  The assertions over the
    columns assert a formatted string, which is never empty: they hold
    whatever the header and the columns are, and the tests never end in
    [AssertionError]. *)
Theorem csv_tests_check_first_row_only (rows : list (list string))
    (columns : list (string * Z)) :
  CompetitionResultDatatypesTests.test_get_competition_leaderboard_as_csv
    rows columns
  = match rows with
    | [] => inl (IndexError "list index out of range")
    | [] :: _ => inl (IndexError "pop from empty list")
    | (_ :: _) :: _ => inr tt
    end.
Proof.
  unfold CompetitionResultDatatypesTests.test_get_competition_leaderboard_as_csv.
  destruct rows as [| [| cell cells] rest]; cbn; [done | done |].
  apply assert_columns_passes.
Qed.

(** ** [_prepare_competition_data] *)

Lemma dict_lookup_set_eq key value entries :
  dict_lookup key (dict_set key value entries) = Some value.
Proof.
  induction entries as [| [k v] entries IH]; cbn.
  - by rewrite decide_True.
  - destruct (decide (k = key)) as [-> | Hne]; cbn.
    + by rewrite decide_True.
    + by rewrite decide_False.
Qed.

Lemma dict_lookup_set_ne key key' value entries :
  key <> key' ->
  dict_lookup key' (dict_set key value entries) = dict_lookup key' entries.
Proof.
  intros Hne. induction entries as [| [k v] entries IH]; cbn.
  - by rewrite decide_False.
  - destruct (decide (k = key)) as [-> | Hk]; cbn.
    + by rewrite !decide_False.
    + by rewrite IH.
Qed.

Lemma dict_lookup_remove_eq key entries :
  dict_lookup key (dict_remove key entries) = None.
Proof.
  unfold dict_remove.
  induction entries as [| [k v] entries IH]; [done |].
  rewrite filter_cons. cbn. destruct (decide (k <> key)) as [Hne | Heq].
  - cbn. by rewrite decide_False.
  - done.
Qed.

Lemma dict_lookup_remove_ne key key' entries :
  key <> key' ->
  dict_lookup key' (dict_remove key entries) = dict_lookup key' entries.
Proof.
  intros Hne. unfold dict_remove.
  induction entries as [| [k v] entries IH]; [done |].
  rewrite filter_cons. cbn. destruct (decide (k <> key)) as [Hk | Hk].
  - cbn. by rewrite IH.
  - apply dec_stable in Hk as ->. by rewrite decide_False.
Qed.

(** What [_prepare_competition_data] returns is the data without the id,
    with the logo and the phases set. *)
Lemma prepare_returns data data' :
  CompetitionTests._prepare_competition_data data = inr data' ->
  exists phases,
    data' = dict_set "phases" phases
              (dict_set "logo" VNone (dict_remove "id" data)).
Proof.
  unfold CompetitionTests._prepare_competition_data, dict_pop.
  destruct (dict_lookup "id" data); [| done]. cbn [test_bind snd].
  repeat (match goal with
          | |- context [test_bind ?m _] =>
              destruct m; cbn [test_bind]; [done |]
          end).
  intros [= <-]. eauto.
Qed.

(** X17: on the data of a competition that has an id, a first phase and a
    first task with a key, [_prepare_competition_data] returns the data
    without the id, with the logo set to [None] and with the tasks of the
    first phase replaced by the key of its first task alone; the other
    phases, the other entries of the first phase and the other entries of
    the data are as they were. *)
Theorem prepare_competition_data_result (data phase0 task0 : list (string * PyVal))
    (id_ key : PyVal) (other_phases other_tasks : list PyVal) :
  dict_lookup "id" data = Some id_ ->
  dict_lookup "phases" data = Some (VList (VDict phase0 :: other_phases)) ->
  dict_lookup "tasks" phase0 = Some (VList (VDict task0 :: other_tasks)) ->
  dict_lookup "key" task0 = Some key ->
  exists data' phase0',
    CompetitionTests._prepare_competition_data data = inr data'
    /\ dict_lookup "id" data' = None
    /\ dict_lookup "logo" data' = Some VNone
    /\ dict_lookup "phases" data' = Some (VList (VDict phase0' :: other_phases))
    /\ dict_lookup "tasks" phase0' = Some (VList [key])
    /\ (forall k, k <> "tasks" -> dict_lookup k phase0' = dict_lookup k phase0)
    /\ (forall k, k <> "id" -> k <> "logo" -> k <> "phases" ->
                  dict_lookup k data' = dict_lookup k data).
Proof.
  intros Hid Hphases Htasks Hkey.
  unfold CompetitionTests._prepare_competition_data, dict_pop.
  rewrite Hid. cbn [test_bind snd getitem_str].
  rewrite dict_lookup_set_ne, dict_lookup_remove_ne, Hphases by done.
  cbn [test_bind getitem_0 getitem_str]. rewrite Htasks.
  cbn [test_bind getitem_0 getitem_str]. rewrite Hkey.
  cbn [test_bind setitem_str with_item_0].
  eexists _, _. split; [reflexivity |].
  split; [by rewrite !dict_lookup_set_ne, dict_lookup_remove_eq |].
  split; [by rewrite dict_lookup_set_ne, dict_lookup_set_eq |].
  split; [by rewrite dict_lookup_set_eq |].
  split; [by rewrite dict_lookup_set_eq |].
  split; [intros k Hk; by rewrite dict_lookup_set_ne |].
  intros k H1 H2 H3.
  by rewrite !dict_lookup_set_ne, dict_lookup_remove_ne.
Qed.

Lemma prepare_competition_data_result_witness :
  dict_lookup "id" competition_data = Some (VInt 1)
  /\ dict_lookup "phases" competition_data
     = Some (VList (VDict first_phase :: [VDict second_phase]))
  /\ dict_lookup "tasks" first_phase
     = Some (VList (VDict first_task :: [VDict second_task]))
  /\ dict_lookup "key" first_task = Some (VStr "task-key-1")
  /\ exists data' phase0',
    CompetitionTests._prepare_competition_data competition_data = inr data'
    /\ dict_lookup "id" data' = None
    /\ dict_lookup "logo" data' = Some VNone
    /\ dict_lookup "phases" data'
       = Some (VList (VDict phase0' :: [VDict second_phase]))
    /\ dict_lookup "tasks" phase0' = Some (VList [VStr "task-key-1"])
    /\ (forall k, k <> "tasks" ->
                  dict_lookup k phase0' = dict_lookup k first_phase)
    /\ (forall k, k <> "id" -> k <> "logo" -> k <> "phases" ->
                  dict_lookup k data' = dict_lookup k competition_data).
Proof.
  repeat (split; [reflexivity |]).
  apply (prepare_competition_data_result competition_data first_phase
           first_task (VInt 1) (VStr "task-key-1") [VDict second_phase]
           [VDict second_task]);
    reflexivity.
Defined.

(** X18: [_prepare_competition_data] cannot be applied to its own result:
    whatever data it returned, it returned them without the id, and a second
    call on them ends in [KeyError] on ["id"]. *)
Theorem prepare_competition_data_once (data data' : list (string * PyVal)) :
  CompetitionTests._prepare_competition_data data = inr data' ->
  dict_lookup "id" data' = None
  /\ dict_lookup "logo" data' = Some VNone
  /\ CompetitionTests._prepare_competition_data data'
     = inl (Raised (KeyError "id")).
Proof.
  intros [phases ->]%prepare_returns.
  assert (dict_lookup "id"
            (dict_set "phases" phases
               (dict_set "logo" VNone (dict_remove "id" data))) = None)
    as Hid.
  { by rewrite !dict_lookup_set_ne, dict_lookup_remove_eq. }
  split; [exact Hid |].
  split; [by rewrite dict_lookup_set_ne, dict_lookup_set_eq |].
  unfold CompetitionTests._prepare_competition_data, dict_pop.
  by rewrite Hid.
Qed.

Lemma prepare_competition_data_once_witness :
  exists data',
    CompetitionTests._prepare_competition_data competition_data = inr data'
    /\ dict_lookup "id" data' = None
    /\ dict_lookup "logo" data' = Some VNone
    /\ CompetitionTests._prepare_competition_data data'
       = inl (Raised (KeyError "id")).
Proof.
  eexists. split; [reflexivity |].
  eapply (prepare_competition_data_once competition_data). reflexivity.
Defined.

(** X19: what [_prepare_competition_data] needs.  Data without an id end in
    [KeyError] on ["id"] whatever else they hold; with an id, a competition
    without phases and a first phase without tasks both end in
    [IndexError], and data without phases in [KeyError] on ["phases"]. *)
Theorem prepare_competition_data_errors (data : list (string * PyVal)) :
  (dict_lookup "id" data = None ->
   CompetitionTests._prepare_competition_data data
   = inl (Raised (KeyError "id")))
  /\ (forall id_, dict_lookup "id" data = Some id_ ->
        (dict_lookup "phases" data = None ->
         CompetitionTests._prepare_competition_data data
         = inl (Raised (KeyError "phases")))
        /\ (dict_lookup "phases" data = Some (VList []) ->
            CompetitionTests._prepare_competition_data data
            = inl (IndexError "list index out of range"))
        /\ (forall phase0 other_phases,
              dict_lookup "phases" data
              = Some (VList (VDict phase0 :: other_phases)) ->
              dict_lookup "tasks" phase0 = Some (VList []) ->
              CompetitionTests._prepare_competition_data data
              = inl (IndexError "list index out of range"))).
Proof.
  unfold CompetitionTests._prepare_competition_data, dict_pop. split.
  - by intros ->.
  - intros id_ ->. cbn [test_bind snd getitem_str].
    rewrite dict_lookup_set_ne, dict_lookup_remove_ne by done.
    split; [by intros -> |]. split; [by intros -> |].
    intros phase0 other_phases -> Htasks.
    cbn [test_bind getitem_0 getitem_str]. by rewrite Htasks.
Qed.

Lemma prepare_competition_data_errors_witness :
  (dict_lookup "id" (dict_remove "id" competition_data) = None
   /\ CompetitionTests._prepare_competition_data
        (dict_remove "id" competition_data)
      = inl (Raised (KeyError "id")))
  /\ (dict_lookup "id" (dict_set "phases" (VList []) competition_data)
      = Some (VInt 1)
      /\ dict_lookup "phases" (dict_set "phases" (VList []) competition_data)
         = Some (VList [])
      /\ CompetitionTests._prepare_competition_data
           (dict_set "phases" (VList []) competition_data)
         = inl (IndexError "list index out of range")).
Proof.
  split.
  - split; [reflexivity |].
    exact (proj1 (prepare_competition_data_errors
                    (dict_remove "id" competition_data)) eq_refl).
  - split; [reflexivity |]. split; [reflexivity |].
    exact (proj1 (proj2 (proj2 (prepare_competition_data_errors
                                  (dict_set "phases" (VList []) competition_data))
                           (VInt 1) eq_refl))
             eq_refl).
Defined.

(** * Properties of the read serializer *)

#[local] Instance score_ordering_total : Total score_ordering.
Proof. intros a b. unfold score_ordering. lia. Qed.

#[local] Instance score_ordering_trans : Transitive score_ordering.
Proof. intros a b c. unfold score_ordering. lia. Qed.

(** X20: [SubmissionSerializer] renders the scores of a submission in the
    order of their column index, whatever order they are stored in: the rows
    under ["scores"] are the renderings of the scores of the submission, all
    of them and each once, and their indices never decrease. *)
Theorem scores_rendered_by_index (instance : SubmissionDetail) :
  exists sorted,
    SubmissionSerializer.field_to_representation instance "scores"
    = inr (RMany (SubmissionScoreSerializer.to_representation <$> sorted))
    /\ sorted ≡ₚ scores instance
    /\ StronglySorted Z.le ((fun s => col_index (column s)) <$> sorted)
    /\ length sorted = length (scores instance).
Proof.
  exists (scores_all instance). split; [reflexivity |].
  unfold scores_all.
  split; [apply merge_sort_Permutation |].
  split.
  - apply (StronglySorted_fmap _ score_ordering Z.le); [done |].
    apply StronglySorted_merge_sort; apply _.
  - by rewrite merge_sort_Permutation.
Qed.

Lemma submission_readable_fields_eq :
  SubmissionSerializer.readable_fields = SubmissionSerializer.fields.
Proof. reflexivity. Qed.

(** X21: [SubmissionSerializer] renders a submission exactly when it has
    data.  With data the output has the twelve keys of [Meta.fields] in their
    order, ["pk"] and ["id"] carry the same primary key, ["filename"] the
    base name of the data file, and there is no key ["secret"]; without data
    the rendering ends in [AttributeError]. *)
Theorem submission_serializer_output (instance : SubmissionDetail) :
  (data (submission instance) = None ->
   SubmissionSerializer.to_representation instance
   = inl (AttributeError "'NoneType' object has no attribute 'data_file'"))
  /\ (forall d, data (submission instance) = Some d ->
        exists out,
          SubmissionSerializer.to_representation instance = inr out
          /\ out.*1 = SubmissionSerializer.fields
          /\ ("pk", RScalar (JInt (pk (submission instance)))) ∈ out
          /\ ("id", RScalar (JInt (pk (submission instance)))) ∈ out
          /\ ("filename", RScalar (JStr (basename (data_file_name d)))) ∈ out
          /\ ("secret" ∉ out.*1)).
Proof.
  unfold SubmissionSerializer.to_representation.
  rewrite submission_readable_fields_eq.
  destruct instance as [[? ? ? ? ? ? ? ? [d |] ?] ? ? ? ? ?];
    cbn [submission data]; split; try discriminate; try reflexivity.
  intros d' [= <-]. eexists. split; [reflexivity |].
  split; [reflexivity |].
  rewrite !elem_of_cons. repeat split; try tauto.
  cbn. rewrite !not_elem_of_cons.
  repeat split; try discriminate. apply not_elem_of_nil.
Qed.

Lemma submission_serializer_output_witness :
  (data (submission (with_submission (set_data None finished_submission)
                       scored_submission)) = None
   /\ SubmissionSerializer.to_representation
        (with_submission (set_data None finished_submission) scored_submission)
      = inl (AttributeError "'NoneType' object has no attribute 'data_file'"))
  /\ (data (submission scored_submission) = Some upload
      /\ exists out,
          SubmissionSerializer.to_representation scored_submission = inr out
          /\ out.*1 = SubmissionSerializer.fields
          /\ ("pk", RScalar (JInt (pk (submission scored_submission)))) ∈ out
          /\ ("id", RScalar (JInt (pk (submission scored_submission)))) ∈ out
          /\ ("filename", RScalar (JStr (basename (data_file_name upload))))
             ∈ out
          /\ ("secret" ∉ out.*1)).
Proof.
  split; (split; [reflexivity |]).
  - exact (proj1 (submission_serializer_output
                    (with_submission (set_data None finished_submission)
                       scored_submission)) eq_refl).
  - exact (proj2 (submission_serializer_output scored_submission)
             upload eq_refl).
Defined.

(** X22: what [SubmissionSerializer] renders does not depend on the secret
    token, the owner, the parent or [has_children] of the submission: two
    submissions that agree on everything else render the same. *)
Theorem submission_serializer_hides_secret (instance : SubmissionDetail)
    (secret_ owner_ : Z) (parent_ : option Z) (has_children_ : bool) :
  SubmissionSerializer.to_representation
    (with_submission
       {| pk := pk (submission instance); owner := owner_;
          phase := phase (submission instance); parent := parent_;
          has_children := has_children_;
          status := status (submission instance);
          status_details := status_details (submission instance);
          secret := secret_; data := data (submission instance);
          description := description (submission instance) |}
       instance)
  = SubmissionSerializer.to_representation instance.
Proof.
  unfold SubmissionSerializer.to_representation.
  rewrite submission_readable_fields_eq.
  destruct instance as [[? ? ? ? ? ? ? ? [d |] ?] ? ? ? ? ?]; reflexivity.
Qed.

Example scored_submission_scores :
  SubmissionSerializer.field_to_representation scored_submission "scores"
  = inr (RMany [[("index", JInt 0); ("score", JInt 91)];
                [("index", JInt 1); ("score", JInt 12)];
                [("index", JInt 2); ("score", JInt 70)]]).
Proof. reflexivity. Qed.

(** * Blind writes *)

(** X23: [update] does not read the table.  Its outcome is the same in any
    two worlds, and when it returns, the row it returns is what is stored
    under the primary key afterwards, whatever was stored there before: the
    secret that is checked and the fields that are kept are those of the
    instance handed in. *)
Theorem update_ignores_table (instance : Submission)
    (validated_data : ValidatedData) (w1 w2 : World) :
  (update instance validated_data w1).1 = (update instance validated_data w2).1
  /\ (forall row, (update instance validated_data w1).1 = inr row ->
        submissions (update instance validated_data w1).2 !! pk instance
        = Some row
        /\ submissions (update instance validated_data w2).2 !! pk instance
           = Some row).
Proof.
  destruct (decide (vd_secret validated_data = Some (secret instance)))
    as [Hsecret | Hsecret].
  - destruct (vd_status validated_data) as [st |] eqn:Hstatus.
    + rewrite !(update_accepted _ _ st) by done. cbn.
      split; [done |]. intros row [= <-]. by rewrite !lookup_insert_eq.
    + rewrite !update_no_status by done. cbn. split; [done | discriminate].
  - rewrite !update_rejected by done. cbn. split; [done | discriminate].
Qed.

Lemma update_ignores_table_witness :
  (update finished_submission (status_only RUNNING (Some 424242))
     (world0 {[ 7 := leaf 7 ]})).1
  = inr (set_secret 424242 (set_status RUNNING finished_submission))
  /\ submissions
       (update finished_submission (status_only RUNNING (Some 424242))
          (world0 {[ 7 := leaf 7 ]})).2 !! pk finished_submission
     = Some (set_secret 424242 (set_status RUNNING finished_submission))
  /\ submissions
       (update finished_submission (status_only RUNNING (Some 424242))
          (world0 ∅)).2 !! pk finished_submission
     = Some (set_secret 424242 (set_status RUNNING finished_submission)).
Proof.
  split; [reflexivity |].
  exact (proj2 (update_ignores_table finished_submission
                  (status_only RUNNING (Some 424242))
                  (world0 {[ 7 := leaf 7 ]}) (world0 ∅))
           _ eq_refl).
Defined.

(** X24: the status is writable at creation.  A creation request that names
    a status gets a submission stored in that status, whichever it is, and
    the one dispatch of the creation is the plain start: for [SCORING] too,
    [run_submission] is called without [is_scoring]. *)
Theorem create_stores_requested_status (context : Context)
    (validated_data : ValidatedData) (requester phase_id : Z) (st : Status)
    (w : World) :
  ctx_owner context = Some requester ->
  vd_phase validated_data = Some phase_id ->
  vd_status validated_data = Some st ->
  exists sub w',
    create context validated_data w = (inr sub, w')
    /\ status sub = st
    /\ submissions w' !! pk sub = Some sub
    /\ run_submission_calls (trace w')
       = run_submission_calls (trace w) ++ [(pk sub, false)].
Proof.
  intros Hctx Hphase Hstatus.
  rewrite (create_accepted _ _ requester phase_id) by done.
  eexists _, _. split; [reflexivity |].
  split; [cbn; by rewrite Hstatus |].
  split; [cbn; by rewrite lookup_insert_eq |].
  cbn. unfold run_submission_calls. by rewrite omap_app.
Qed.

Lemma create_stores_requested_status_witness :
  ctx_owner {| ctx_owner := Some 3 |} = Some 3
  /\ vd_phase {| vd_data := Some (Some upload); vd_phase := Some 10;
                 vd_status := Some SCORING; vd_status_details := None;
                 vd_secret := None; vd_owner := None |} = Some 10
  /\ vd_status {| vd_data := Some (Some upload); vd_phase := Some 10;
                  vd_status := Some SCORING; vd_status_details := None;
                  vd_secret := None; vd_owner := None |} = Some SCORING
  /\ exists sub w',
    create {| ctx_owner := Some 3 |}
      {| vd_data := Some (Some upload); vd_phase := Some 10;
         vd_status := Some SCORING; vd_status_details := None;
         vd_secret := None; vd_owner := None |}
      (world0 {[ 7 := finished_submission ]}) = (inr sub, w')
    /\ status sub = SCORING
    /\ submissions w' !! pk sub = Some sub
    /\ run_submission_calls (trace w')
       = run_submission_calls (trace (world0 {[ 7 := finished_submission ]}))
         ++ [(pk sub, false)].
Proof.
  split; [reflexivity |]. split; [reflexivity |]. split; [reflexivity |].
  apply (create_stores_requested_status _ _ 3 10); reflexivity.
Defined.
